(** * Daily Rhythm: the reminder scheduling engine of [src/app/page.tsx]

    A shallow embedding of the task store, the 30-second evaluation tick and
    the alert channel of the [Home] component, with the JavaScript
    primitives they rest on ([String.prototype.split], [Number], the [Date]
    constructor and [Array.prototype.sort]).

    React state is modelled by explicit state passing: a [setTasks] or
    [setAlerts] updater is a function from the current value to the next. *)

From Stdlib Require Import ZArith List String Ascii Bool Lia.
From Stdlib Require Import Sorted Permutation.
From Stdlib Require OrdersEx.
Import ListNotations.

Local Open Scope Z_scope.
Local Open Scope list_scope.

(** ** JavaScript numbers

    Every number the engine computes with is an integer time value, a count
    of minutes, or NaN.  They are modelled as exact integers plus NaN;
    double-precision arithmetic agrees with this on the range of valid time
    values (at most 8.64e15 in magnitude). *)

Module JS.

Inductive num : Type :=
| NaN
| Fin (z : Z).

Definition is_finite (a : num) : bool :=
  match a with Fin _ => true | NaN => false end.

(** [a - b] *)
Definition sub (a b : num) : num :=
  match a, b with
  | Fin x, Fin y => Fin (x - y)
  | _, _ => NaN
  end.

(** [a * b] *)
Definition mul (a b : num) : num :=
  match a, b with
  | Fin x, Fin y => Fin (x * y)
  | _, _ => NaN
  end.

(** [a >= b]; every comparison with NaN is false. *)
Definition ge (a b : num) : bool :=
  match a, b with
  | Fin x, Fin y => y <=? x
  | _, _ => false
  end.

(** [a <= b] *)
Definition le (a b : num) : bool :=
  match a, b with
  | Fin x, Fin y => x <=? y
  | _, _ => false
  end.

(** [a === b] on numbers: NaN differs from itself. *)
Definition strict_eq (a b : num) : bool :=
  match a, b with
  | Fin x, Fin y => x =? y
  | _, _ => false
  end.

(** Truthiness of a string: only the empty string is falsy. *)
Definition truthy (s : string) : bool :=
  match s with EmptyString => false | String _ _ => true end.

(** Truthiness of an optional string property: [undefined] is falsy. *)
Definition truthy_opt (s : option string) : bool :=
  match s with None => false | Some v => truthy v end.

(** *** [String.prototype.split] with a one-character separator.
    The result always has at least one element. *)
Fixpoint split (sep : ascii) (s : string) : list string :=
  match s with
  | EmptyString => [EmptyString]
  | String c rest =>
      if Ascii.eqb c sep then EmptyString :: split sep rest
      else match split sep rest with
           | [] => [String c EmptyString]
           | hd :: tl => String c hd :: tl
           end
  end.

(** *** [Number(s)] on strings.

    White space is trimmed; the empty string is [0]; an optionally signed
    run of decimal digits is its value; text that is not a number is NaN.
    The model covers the decimal integers, which is what the parts of a
    date and of a time are.  It has no value for the other numeric forms of
    StringToNumber (fraction, exponent, radix prefix, Infinity) and reads
    them as NaN, where JavaScript reads them as numbers. *)

(** Strings are sequences of 8-bit characters; the white space among them
    is TAB, LF, VT, FF, CR, SP and NBSP. *)
Definition is_space (c : ascii) : bool :=
  let n := nat_of_ascii c in
  (Nat.leb 9 n && Nat.leb n 13) || Nat.eqb n 32 || Nat.eqb n 160.

Fixpoint trim_start (s : string) : string :=
  match s with
  | String c rest => if is_space c then trim_start rest else s
  | EmptyString => EmptyString
  end.

Fixpoint trim_end (s : string) : string :=
  match s with
  | EmptyString => EmptyString
  | String c rest =>
      match trim_end rest with
      | EmptyString => if is_space c then EmptyString else String c EmptyString
      | r => String c r
      end
  end.

Definition trim (s : string) : string := trim_end (trim_start s).

Definition digit_val (c : ascii) : option Z :=
  let n := nat_of_ascii c in
  if Nat.leb 48 n && Nat.leb n 57 then Some (Z.of_nat n - 48) else None.

Fixpoint digits (acc : Z) (s : string) : option Z :=
  match s with
  | EmptyString => Some acc
  | String c rest =>
      match digit_val c with
      | Some d => digits (10 * acc + d) rest
      | None => None
      end
  end.

Definition unsigned_digits (s : string) : num :=
  match s with
  | EmptyString => NaN
  | _ => match digits 0 s with Some v => Fin v | None => NaN end
  end.

Definition Number (s : string) : num :=
  match trim s with
  | EmptyString => Fin 0
  | String "+" rest => unsigned_digits rest
  | String "-" rest => mul (Fin (-1)) (unsigned_digits rest)
  | t => unsigned_digits t
  end.

(** *** The [Date] constructor, [new Date(y, m, d, h, min, s, ms)].

    A date object is modelled by its time value ([getTime()]): milliseconds
    since the epoch, or NaN for an invalid date. *)
Definition msPerDay : Z := 86400000.
Definition maxTime : Z := 8640000000000000.

(** Day number of the first day of month [m] (0-based, already reduced to
    0..11) of year [y] in the proleptic Gregorian calendar. *)
Definition day_of_month_start (y m : Z) : Z :=
  let y' := if m <=? 1 then y - 1 else y in
  let era := y' / 400 in
  let yoe := y' - era * 400 in
  let mp := if m <=? 1 then m + 10 else m - 2 in
  let doy := (153 * mp + 2) / 5 in
  era * 146097 + (yoe * 365 + yoe / 4 - yoe / 100 + doy) - 719468.

Definition MakeDay (year month date : Z) : Z :=
  let ym := year + month / 12 in
  let mn := month mod 12 in
  day_of_month_start ym mn + date - 1.

Definition MakeTime (hour min sec ms : Z) : Z :=
  hour * 3600000 + min * 60000 + sec * 1000 + ms.

Definition MakeDate (day time : Z) : Z := day * msPerDay + time.

Definition MakeFullYear (y : Z) : Z :=
  if (0 <=? y) && (y <=? 99) then 1900 + y else y.

Definition TimeClip (t : Z) : num :=
  if maxTime <? Z.abs t then NaN else Fin t.

Section LocalTime.
  (** The host's conversion of a local time value to UTC. *)
Variable UTC : Z -> Z.

Definition new_Date (year month day hours minutes seconds ms : num) : num :=
    match year, month, day, hours, minutes, seconds, ms with
    | Fin y, Fin m, Fin d, Fin h, Fin mi, Fin s, Fin milli =>
        TimeClip (UTC (MakeDate (MakeDay (MakeFullYear y) m d) (MakeTime h mi s milli)))
    | _, _, _, _, _, _, _ => NaN
    end.
End LocalTime.

(** *** [Array.prototype.sort] with a comparison function.

    [SortCompare] turns a NaN returned by the comparison function into [+0].
    The sort is stable (ECMAScript 2019).  For a consistent comparison
    function the standard determines the result, and every stable sort
    computes it; the model is a stable insertion sort.  When the comparison
    function is not consistent the standard leaves the order to the
    implementation. *)
Section Sort.
Context {A : Type}.
Variable comparefn : A -> A -> num.

Definition SortCompare (x y : A) : Z :=
    match comparefn x y with
    | NaN => 0
    | Fin v => v
    end.

Fixpoint insert (x : A) (l : list A) : list A :=
    match l with
    | [] => [x]
    | y :: rest =>
        if SortCompare x y <=? 0 then x :: l else y :: insert x rest
    end.

Definition sort (l : list A) : list A := fold_right insert [] l.
End Sort.

(** *** [String.prototype.padStart(2, "0")] *)
Definition padStart2 (s : string) : string :=
  match s with
  | EmptyString => "00"
  | String c EmptyString => String "0" (String c EmptyString)
  | _ => s
  end.

(** [x ?? d] on an array slot that may be missing. *)
Definition nullish {A : Type} (x : option A) (d : A) : A :=
  match x with Some v => v | None => d end.

End JS.


(** ** Data model *)

Module Task.
Record t : Type := mk {
    id : string;
    title : string;
    description : string;
    date : string;          (* YYYY-MM-DD *)
    time : string;          (* HH:MM *)
    remindBefore : Z;       (* minutes, an integer *)
    completed : bool;
    notified : bool
  }.
End Task.

Module Alert.
Record t : Type := mk {
    id : string;
    taskId : string;
    message : string;
    scheduledAt : string    (* ISO string *)
  }.
End Alert.

(** [Partial<Omit<Task, "id">>]: [None] is an absent property. *)
Module Updates.
Record t : Type := mk {
    title : option string;
    description : option string;
    date : option string;
    time : option string;
    remindBefore : option Z;
    completed : option bool;
    notified : option bool
  }.

Definition none : t := mk None None None None None None None.
End Updates.

Module Blueprint.
Record t : Type := mk {
    title : string;
    time : string;
    description : string;
    remindBefore : Z
  }.
End Blueprint.

Module Form.
Record t : Type := mk {
    title : string;
    description : string;
    date : string;
    time : string;
    remindBefore : Z
  }.
End Form.

Definition templateBlueprint : list Blueprint.t :=
  [ Blueprint.mk "Morning Stretch" "07:00"
      "Loosen up with a 10 minute stretch routine." 10;
    Blueprint.mk "Focus Block #1" "09:00"
      "Deep work session on priority project." 15;
    Blueprint.mk "Lunch Break" "12:30"
      "Step away from the desk and recharge." 10;
    Blueprint.mk "Afternoon Check-in" "15:00"
      "Review progress and adjust the plan." 10;
    Blueprint.mk "Wrap-up & Plan Tomorrow" "18:00"
      "Log wins and prep tomorrow's priorities." 15 ]%string.

(** The component state the engine works on: the two [useState] cells and
    the number of identifiers [createId] has handed out so far. *)
Record Store : Type := mkStore {
  tasks : list Task.t;
  alerts : list Alert.t;
  issued : nat
}.

Definition emptyStore : Store := mkStore [] [] 0.

Definition setTasks (f : list Task.t -> list Task.t) (s : Store) : Store :=
  mkStore (f (tasks s)) (alerts s) (issued s).

Definition normalizeTimeValue (value : string) : string :=
  if negb (JS.truthy value) then ""%string
  else
    let parts := JS.split ":" value in
    let hours := nth 0 parts "00"%string in
    let minutes := nth 1 parts "00"%string in
    (JS.padStart2 hours ++ ":" ++ JS.padStart2 minutes)%string.

(** The host environment the component runs in: the local time zone, the
    identifiers produced by [crypto.randomUUID] (the [n]-th call of
    [createId] returns [createId n]), and the locale-dependent renderings
    used in the alert text. *)
Class Host : Type := {
  UTC : Z -> Z;
  createId : nat -> string;
  formatTimeLabel : JS.num -> string;
  toISOString : JS.num -> string;
  numberToString : Z -> string
}.

Section Engine.
Context {host : Host}.

(** *** Time utilities *)

Definition combineDateTime (date time : string) : JS.num :=
  let parts := JS.split ":" time in
  let hours := nth 0 parts "00"%string in
  let minutes := nth 1 parts "00"%string in
  let nums := map JS.Number (JS.split "-" date) in
  let year := nth 0 nums JS.NaN in
  let month := nth_error nums 1 in
  let day := nth_error nums 2 in
  JS.new_Date UTC year
    (JS.sub (JS.nullish month (JS.Fin 1)) (JS.Fin 1))
    (JS.nullish day (JS.Fin 1))
    (JS.Number hours) (JS.Number minutes) (JS.Fin 0) (JS.Fin 0).

(** [combineDateTime(task.date, task.time).getTime()] *)
Definition startTime (task : Task.t) : JS.num :=
  combineDateTime (Task.date task) (Task.time task).

Definition compareTasks (a b : Task.t) : JS.num :=
  JS.sub (startTime a) (startTime b).

Definition sortTasks (data : list Task.t) : list Task.t :=
  JS.sort compareTasks data.

Definition saveTasks (draft : list Task.t) (s : Store) : Store :=
  setTasks (fun _ => sortTasks draft) s.

(** *** Alert channel *)

Definition alertMessage (task : Task.t) : string :=
  (Task.title task ++ " starts at " ++ formatTimeLabel (startTime task) ++
   (if Z.eqb (Task.remindBefore task) 0 then ""
    else " (notified " ++ numberToString (Task.remindBefore task) ++ " min early)"))%string.

(** The alert [triggerNotification] builds when [n] identifiers are in use. *)
Definition newAlert (task : Task.t) (n : nat) : Alert.t :=
  Alert.mk (createId n) (Task.id task) (alertMessage task)
    (toISOString (startTime task)).

(** [triggerNotification]: the [setAlerts] updater.  The desktop
    notification and the chime have no effect on the state. *)
Definition triggerNotification (task : Task.t) (s : Store) : Store :=
  if existsb (fun item => String.eqb (Alert.taskId item) (Task.id task)) (alerts s)
  then s
  else mkStore (tasks s) (alerts s ++ [newAlert task (issued s)]) (S (issued s)).

Definition acknowledgeAlert (alertId : string) (s : Store) : Store :=
  mkStore (tasks s)
    (filter (fun item => negb (String.eqb (Alert.id item) alertId)) (alerts s))
    (issued s).

(** *** Scheduling engine *)

Definition triggerTime (task : Task.t) : JS.num :=
  JS.sub (startTime task) (JS.Fin (Task.remindBefore task * 60 * 1000)).

Definition markNotified (task : Task.t) : Task.t :=
  Task.mk (Task.id task) (Task.title task) (Task.description task)
    (Task.date task) (Task.time task) (Task.remindBefore task)
    (Task.completed task) true.

(** The [current.map(...)] of the interval callback: the mapped list, the
    [touched] flag, and the store after the notifications it triggered. *)
Fixpoint tickMap (nowTime : Z) (current : list Task.t) (s : Store)
  : list Task.t * bool * Store :=
  match current with
  | [] => ([], false, s)
  | task :: rest =>
      if Task.completed task || Task.notified task then
        let '(next, touched, s') := tickMap nowTime rest s in
        (task :: next, touched, s')
      else if JS.ge (JS.Fin nowTime) (triggerTime task) then
        let '(next, _, s') := tickMap nowTime rest (triggerNotification task s) in
        (markNotified task :: next, true, s')
      else
        let '(next, touched, s') := tickMap nowTime rest s in
        (task :: next, touched, s')
  end.

Definition tick (nowTime : Z) (s : Store) : Store :=
  let '(next, touched, s') := tickMap nowTime (tasks s) s in
  setTasks (fun current => if touched then sortTasks next else current) s'.

(** *** Task store *)

Fixpoint instantiate (date : string) (entries : list Blueprint.t) (n : nat)
  : list Task.t :=
  match entries with
  | [] => []
  | entry :: rest =>
      Task.mk (createId n) (Blueprint.title entry) (Blueprint.description entry)
        date (Blueprint.time entry) (Blueprint.remindBefore entry) false false
      :: instantiate date rest (S n)
  end.

(** The [setTasks] updater of [resetTemplateForDay]. *)
Definition replaceForDate (date : string) (blueprint prev : list Task.t)
  : list Task.t :=
  let filtered := filter (fun task => negb (String.eqb (Task.date task) date)) prev in
  sortTasks (filtered ++ blueprint).

Definition resetTemplateForDay (date : string) (s : Store) : Store :=
  let blueprint := instantiate date templateBlueprint (issued s) in
  mkStore (replaceForDate date blueprint (tasks s)) (alerts s)
    (issued s + List.length templateBlueprint).

Definition setCompleted (taskId : string) (completed : bool) (task : Task.t)
  : Task.t :=
  if String.eqb (Task.id task) taskId then
    Task.mk (Task.id task) (Task.title task) (Task.description task)
      (Task.date task) (Task.time task) (Task.remindBefore task)
      completed (Task.notified task)
  else task.

Definition handleTaskCompletion (taskId : string) (completed : bool) (s : Store)
  : Store :=
  setTasks (fun prev => sortTasks (map (setCompleted taskId completed) prev)) s.

Definition handleTaskRemoval (taskId : string) (s : Store) : Store :=
  setTasks (filter (fun task => negb (String.eqb (Task.id task) taskId))) s.

(** The guard of [handleFormSubmit]: a required field is empty. *)
Definition incomplete (formState : Form.t) : bool :=
  negb (JS.truthy (Form.title formState))
  || negb (JS.truthy (Form.date formState))
  || negb (JS.truthy (Form.time formState)).

Definition newTask (formState : Form.t) (n : nat) : Task.t :=
  Task.mk (createId n) (JS.trim (Form.title formState))
    (JS.trim (Form.description formState)) (Form.date formState)
    (normalizeTimeValue (Form.time formState))
    (Form.remindBefore formState) false false.

Definition handleFormSubmit (formState : Form.t) (s : Store) : Store :=
  if incomplete formState then s
  else
    mkStore (sortTasks (tasks s ++ [newTask formState (issued s)])) (alerts s)
      (S (issued s)).

(** [{ ...task, ...updates, notified: updates.time || updates.date ? false : task.notified }] *)
Definition applyUpdates (updates : Updates.t) (task : Task.t) : Task.t :=
  Task.mk (Task.id task)
    (JS.nullish (Updates.title updates) (Task.title task))
    (JS.nullish (Updates.description updates) (Task.description task))
    (JS.nullish (Updates.date updates) (Task.date task))
    (JS.nullish (Updates.time updates) (Task.time task))
    (JS.nullish (Updates.remindBefore updates) (Task.remindBefore task))
    (JS.nullish (Updates.completed updates) (Task.completed task))
    (if JS.truthy_opt (Updates.time updates) || JS.truthy_opt (Updates.date updates)
     then false else Task.notified task).

Definition updateTask (taskId : string) (updates : Updates.t) (task : Task.t)
  : Task.t :=
  if String.eqb (Task.id task) taskId then applyUpdates updates task else task.

Definition handleTaskUpdate (taskId : string) (updates : Updates.t) (s : Store)
  : Store :=
  setTasks (fun prev => sortTasks (map (updateTask taskId updates) prev)) s.

(** *** The operations of the task store, as the rendering layer issues them *)

Inductive Mutation : Type :=
| Create (formState : Form.t)
| Update (taskId : string) (updates : Updates.t)
| SetCompleted (taskId : string) (completed : bool)
| BulkReplaceForDate (date : string)
| Remove (taskId : string).

Definition mutate (m : Mutation) (s : Store) : Store :=
  match m with
  | Create formState => handleFormSubmit formState s
  | Update taskId updates => handleTaskUpdate taskId updates s
  | SetCompleted taskId completed => handleTaskCompletion taskId completed s
  | BulkReplaceForDate date => resetTemplateForDay date s
  | Remove taskId => handleTaskRemoval taskId s
  end.

(** Everything that changes the component state: a mutation, a tick of the
    engine at some time, the dismissal of an alert, and [saveTasks] on the
    snapshot read from storage or on the seeded template. *)
Inductive Event : Type :=
| Mutate (m : Mutation)
| Tick (nowTime : Z)
| Acknowledge (alertId : string)
| Hydrate (parsed : list Task.t).

Definition run (s : Store) (e : Event) : Store :=
  match e with
  | Mutate m => mutate m s
  | Tick nowTime => tick nowTime s
  | Acknowledge alertId => acknowledgeAlert alertId s
  | Hydrate parsed => saveTasks parsed s
  end.

Definition runAll (events : list Event) : Store :=
  fold_left run events emptyStore.

(** ** Vocabulary of the properties *)

(** The task's start instant is a valid date. *)
Definition validTask (task : Task.t) : bool := JS.is_finite (startTime task).

(** [a] does not start after [b] (JavaScript [<=] on the time values). *)
Definition notAfter (a b : Task.t) : bool := JS.le (startTime a) (startTime b).

(** The collection is in ascending order of start instant. *)
Fixpoint ordered (l : list Task.t) : bool :=
  match l with
  | [] => true
  | x :: rest => forallb (notAfter x) rest && ordered rest
  end.

(** The tasks that start at the instant [v]. *)
Definition startsAt (v : Z) (task : Task.t) : bool :=
  JS.strict_eq (startTime task) (JS.Fin v).

(** The collection a mutation builds, in insertion order, before the store
    orders it. *)
Definition inserted (m : Mutation) (s : Store) : list Task.t :=
  match m with
  | Create formState =>
      if incomplete formState then tasks s
      else tasks s ++ [newTask formState (issued s)]
  | Update taskId updates => map (updateTask taskId updates) (tasks s)
  | SetCompleted taskId completed => map (setCompleted taskId completed) (tasks s)
  | BulkReplaceForDate date =>
      filter (fun task => negb (String.eqb (Task.date task) date)) (tasks s)
        ++ instantiate date templateBlueprint (issued s)
  | Remove taskId =>
      filter (fun task => negb (String.eqb (Task.id task) taskId)) (tasks s)
  end.

(** The parts [combineDateTime] destructures: the [i]-th element of
    [time.split(":")], with its default, and of [date.split("-")], when
    there is one. *)
Definition timePart (i : nat) (time : string) : string :=
  nth i (JS.split ":" time) "00"%string.

Definition datePart (i : nat) (date : string) : option string :=
  nth_error (JS.split "-" date) i.

(** The tick's condition on one task. *)
Definition qualifies (nowTime : Z) (task : Task.t) : bool :=
  negb (Task.completed task || Task.notified task)
  && JS.ge (JS.Fin nowTime) (triggerTime task).

(** What the tick's [map] callback returns for one task. *)
Definition tickTask (nowTime : Z) (task : Task.t) : Task.t :=
  if qualifies nowTime task then markNotified task else task.

(** The notifications of one tick, in the order of the collection. *)
Definition notifyAll (fired : list Task.t) (s : Store) : Store :=
  fold_left (fun acc task => triggerNotification task acc) fired s.

End Engine.

(** The live alerts that refer to a task. *)
Definition sameTask (taskId : string) (item : Alert.t) : bool :=
  String.eqb (Alert.taskId item) taskId.

Definition alertsFor (taskId : string) (l : list Alert.t) : list Alert.t :=
  filter (sameTask taskId) l.

(** At most one live alert per task. *)
Fixpoint onePerTask (l : list Alert.t) : bool :=
  match l with
  | [] => true
  | item :: rest =>
      negb (existsb (sameTask (Alert.taskId item)) rest) && onePerTask rest
  end.

(** The task is the only one of the collection with its identifier. *)
Definition soleOwner (task : Task.t) (l : list Task.t) : Prop :=
  forall other, In other l -> Task.id other = Task.id task -> other = task.

(** The mutations that set the collection without sorting it: a removal,
    and a form that is rejected, which creates nothing. *)
Definition skipsSort (m : Mutation) : bool :=
  match m with
  | Remove _ => true
  | Create formState => incomplete formState
  | _ => false
  end.

(** A string without the separator [sep]. *)
Fixpoint lacks (sep : ascii) (s : string) : bool :=
  match s with
  | EmptyString => true
  | String c rest => negb (Ascii.eqb c sep) && lacks sep rest
  end.

(** ** A concrete host and sample data

    Local time is UTC, identifiers are numbered, and the renderings are
    placeholders. *)
Definition utcHost : Host := {|
  UTC := fun t => t;
  createId := fun n => String (ascii_of_nat (48 + n)) EmptyString;
  formatTimeLabel := fun _ => "--:--"%string;
  toISOString := fun _ => "-"%string;
  numberToString := fun _ => "N"%string
|}.

Definition sample (id date time : string) (remindBefore : Z) (notified : bool)
  : Task.t :=
  Task.mk id "Call" "" date time remindBefore false notified.

Definition stretch : Task.t := sample "s" "2024-01-02" "07:00" 10 false.
Definition focus : Task.t := sample "f" "2024-01-02" "09:00" 15 false.
Definition lunch : Task.t := sample "l" "2024-01-03" "12:30" 10 true.
Definition broken : Task.t := sample "x" "someday" "09:00" 0 false.
Definition early : Task.t := sample "e" "2024-01-01" "09:00" 0 false.
Definition finished : Task.t :=
  Task.mk "d" "Review" "" "2024-01-02" "08:00" 0 true false.

Definition walk : Form.t := Form.mk "Walk" "" "2024-01-05" "10:00" 5.

(** A store in ascending order, with no alert. *)
Definition planned : Store := mkStore [stretch; finished; focus; lunch] [] 0.

(** The same store once the reminder of [stretch] has fired. *)
Definition alerted : Store :=
  mkStore [markNotified stretch; finished; focus; lunch]
    [newAlert (host := utcHost) stretch 0] 1.

(** A snapshot read from storage in which one task has an unreadable date. *)
Definition snapshot : list Task.t := [lunch; broken; early].

(** 2024-01-02 06:50 UTC, ten minutes before [stretch] starts. *)
Definition stretchTrigger : Z := 1704178200000.

(** What the reminder and the time field of a task row send. *)
Definition remindOnly : Updates.t :=
  Updates.mk None None None None (Some 30) None (Some false).

Definition clearedTime : Updates.t :=
  Updates.mk None None None (Some ""%string) None None (Some false).

(** ** The rest of the component

    The views the page derives from the collection, the two date utilities
    that go with [combineDateTime], the side effects of a notification, and
    the effects that load, seed and store the collection. *)

(** *** [Number::toString] on integers and the [Date] getters *)

Definition digitChar (d : Z) : ascii := ascii_of_nat (48 + Z.to_nat d).

(** The decimal digits of [n >= 0], most significant first, in front of
    [acc]; [fuel] bounds the number of digits. *)
Fixpoint decimalDigits (fuel : nat) (n : Z) (acc : string) : string :=
  match fuel with
  | O => acc
  | S fuel' =>
      let acc' := String (digitChar (n mod 10)) acc in
      if n <? 10 then acc' else decimalDigits fuel' (n / 10) acc'
  end.

(** The text of the template literal [`${n}`] for an integer [n] (below
    10^21 in magnitude, where JavaScript prints all the digits). *)
Definition numberText (n : Z) : string :=
  if n <? 0 then String "-" (decimalDigits (S (Z.to_nat (Z.log2 (- n)))) (- n) "")
  else decimalDigits (S (Z.to_nat (Z.log2 n))) n "".

(** [Day(t)], and the year, month (from 0) and day of the month of a day
    number in the proleptic Gregorian calendar. *)
Definition Day (t : Z) : Z := t / JS.msPerDay.

Definition civil (day : Z) : Z * Z * Z :=
  let z := day + 719468 in
  let era := z / 146097 in
  let doe := z - era * 146097 in
  let yoe := (doe - doe / 1460 + doe / 36524 - doe / 146096) / 365 in
  let doy := doe - (365 * yoe + yoe / 4 - yoe / 100) in
  let mp := (5 * doy + 2) / 153 in
  let date := doy - (153 * mp + 2) / 5 + 1 in
  let month := if mp <? 10 then mp + 2 else mp - 10 in
  let year := yoe + era * 400 + (if month <=? 1 then 1 else 0) in
  (year, month, date).

(** [value.getFullYear()], [value.getMonth()] and [value.getDate()] of a
    valid date whose local time value is [localTime]. *)
Definition getFullYear (localTime : Z) : Z := fst (fst (civil (Day localTime))).
Definition getMonth (localTime : Z) : Z := snd (fst (civil (Day localTime))).
Definition getDate (localTime : Z) : Z := snd (civil (Day localTime)).

(** [formatDateInput(value)], for the date whose local time value is
    [localTime]; the getters of an invalid date are NaN. *)
Definition formatDateInput (localTime : JS.num) : string :=
  match localTime with
  | JS.NaN => "NaN-NaN-NaN"
  | JS.Fin t =>
      let year := getFullYear t in
      let month := JS.padStart2 (numberText (getMonth t + 1)) in
      let day := JS.padStart2 (numberText (getDate t)) in
      (numberText year ++ "-" ++ month ++ "-" ++ day)%string
  end.

(** *** Side effects of a notification *)

Inductive Permission : Type := Granted | Denied | Prompt.

Inductive Effect : Type :=
| ShowNotification (title body tag : string)
| PlayTone.

(** *** Summary of the selected day *)

Module Stats.
Record t : Type := mk {
  total : Z;
  completed : Z;
  pending : Z;
  nextTask : option Task.t
}.
End Stats.

(** *** Durable storage

    What [localStorage.getItem] and [JSON.parse] make of the stored text:
    no text (or the empty text), text that [JSON.parse] rejects, or the
    JSON of a task array.  The text [JSON.stringify] writes for a
    collection is read back as that collection. *)
Inductive StoredItem : Type :=
| NoItem
| Unreadable
| Snapshot (parsed : list Task.t).

(** The component state around the store: the seeding latch
    [hasInitialisedTemplate.current], [isHydrated] and the storage. *)
Record App : Type := mkApp {
  store : Store;
  hasInitialisedTemplate : bool;
  isHydrated : bool;
  storage : StoredItem
}.

Definition initialApp (item : StoredItem) : App :=
  mkApp emptyStore false false item.

(** [new Set(values)] followed by [Array.from]: the distinct values in the
    order of their first occurrence. *)
Definition setAdd (set : list string) (value : string) : list string :=
  if existsb (String.eqb value) set then set else set ++ [value].

Definition newSet (values : list string) : list string :=
  fold_left setAdd values [].

(** [(a, b) => (a > b ? 1 : -1)] on strings. *)
Definition compareDates (a b : string) : JS.num :=
  if String.ltb b a then JS.Fin 1 else JS.Fin (-1).

Definition allDates (tasks : list Task.t) : list string :=
  JS.sort compareDates (newSet (map Task.date tasks)).

Definition selectedDayTasks (tasks : list Task.t) (selectedDate : string)
  : list Task.t :=
  filter (fun task => String.eqb (Task.date task) selectedDate) tasks.

Section Component.
Context {host : Host}.

Definition getSoonestTask (tasks : list Task.t) : option Task.t :=
  let upcoming :=
    JS.sort compareTasks (filter (fun task => negb (Task.completed task)) tasks) in
  nth_error upcoming 0.

Definition stats (selected : list Task.t) : Stats.t :=
  let total := Z.of_nat (List.length selected) in
  let completed := Z.of_nat (List.length (filter Task.completed selected)) in
  Stats.mk total completed (total - completed) (getSoonestTask selected).

(** The part of [triggerNotification] after [setAlerts]: the desktop
    notification, when the browser has the API and permission is granted,
    then the chime. *)
Definition notificationEffects (supported : bool) (permission : Permission)
  (task : Task.t) : list Effect :=
  (if supported then
     match permission with
     | Granted => [ShowNotification (Task.title task) (alertMessage task) (Task.id task)]
     | _ => []
     end
   else [])
  ++ [PlayTone].

(** The interval callback with the effects it causes, in order. *)
Fixpoint tickMapFx (supported : bool) (permission : Permission) (nowTime : Z)
  (current : list Task.t) (s : Store) : list Task.t * bool * Store * list Effect :=
  match current with
  | [] => ([], false, s, [])
  | task :: rest =>
      if Task.completed task || Task.notified task then
        let '(next, touched, s', fx) := tickMapFx supported permission nowTime rest s in
        (task :: next, touched, s', fx)
      else if JS.ge (JS.Fin nowTime) (triggerTime task) then
        let '(next, _, s', fx) :=
          tickMapFx supported permission nowTime rest (triggerNotification task s) in
        (markNotified task :: next, true, s',
         notificationEffects supported permission task ++ fx)
      else
        let '(next, touched, s', fx) := tickMapFx supported permission nowTime rest s in
        (task :: next, touched, s', fx)
  end.

Definition tickFx (supported : bool) (permission : Permission) (nowTime : Z)
  (s : Store) : Store * list Effect :=
  let '(next, touched, s', fx) :=
    tickMapFx supported permission nowTime (tasks s) s in
  (setTasks (fun current => if touched then sortTasks next else current) s', fx).

(** The "Push to tomorrow" button; [localTime] is the local time value of
    [Date.now() + 24 * 60 * 60 * 1000]. *)
Definition pushToTomorrow (localTime : Z) (taskId : string) (s : Store) : Store :=
  handleTaskUpdate taskId
    (Updates.mk None None (Some (formatDateInput (JS.Fin localTime))) None None
       (Some false) (Some false))
    s.

(** The [onChange] handlers of a task row's reminder and time fields;
    [minutes] is the option chosen in the reminder select. *)
Definition changeReminder (taskId : string) (minutes : Z) (s : Store) : Store :=
  handleTaskUpdate taskId
    (Updates.mk None None None None (Some minutes) None (Some false)) s.

Definition changeTime (taskId value : string) (s : Store) : Store :=
  handleTaskUpdate taskId
    (Updates.mk None None None (Some (normalizeTimeValue value)) None None (Some false))
    s.

(** *** Loading, seeding and storing the collection *)

Definition ensureTemplate (targetDate : string) (app : App) : App :=
  if hasInitialisedTemplate app then app
  else
    let blueprint := instantiate targetDate templateBlueprint (issued (store app)) in
    mkApp
      (mkStore (sortTasks blueprint) (alerts (store app))
         (issued (store app) + List.length templateBlueprint))
      true (isHydrated app) (storage app).

(** The effect that runs once after the first render. *)
Definition hydrateEffect (app : App) : App :=
  match storage app with
  | Snapshot parsed =>
      mkApp (saveTasks parsed (store app)) true true (storage app)
  | Unreadable => mkApp (store app) (hasInitialisedTemplate app) true NoItem
  | NoItem => mkApp (store app) (hasInitialisedTemplate app) true NoItem
  end.

(** The effect on [isHydrated] and [tasks.length].  It also sets the
    selected date, which is view state outside [App]. *)
Definition seedEffect (today : string) (app : App) : App :=
  if isHydrated app && Nat.eqb (List.length (tasks (store app))) 0
  then ensureTemplate today app
  else app.

(** The effect on [tasks] and [isHydrated]. *)
Definition persistEffect (app : App) : App :=
  if isHydrated app
  then mkApp (store app) (hasInitialisedTemplate app) (isHydrated app)
         (Snapshot (tasks (store app)))
  else app.

(** An event of the store, in the running component. *)
Definition dispatch (app : App) (e : Event) : App :=
  mkApp (run (store app) e) (hasInitialisedTemplate app) (isHydrated app)
    (storage app).

(** The first load: the hydration effect, then the seeding and the storing
    effects of the render that follows. *)
Definition mount (today : string) (item : StoredItem) : App :=
  persistEffect (seedEffect today (hydrateEffect (initialApp item))).

End Component.

(** ** Vocabulary of the further properties *)

(** A string of decimal digits, possibly empty. *)
Fixpoint allDigits (s : string) : bool :=
  match s with
  | EmptyString => true
  | String c rest =>
      match JS.digit_val c with Some _ => allDigits rest | None => false end
  end.

(** A string of white space, possibly empty. *)
Fixpoint allSpaces (s : string) : bool :=
  match s with
  | EmptyString => true
  | String c rest => JS.is_space c && allSpaces rest
  end.

(** The effect is the chime. *)
Definition isTone (e : Effect) : bool :=
  match e with PlayTone => true | ShowNotification _ _ _ => false end.

(** * Facts about the JavaScript primitives *)

Section SortFacts.
Context {A : Type} (comparefn : A -> A -> JS.num).

Lemma insert_perm (x : A) (l : list A) :
  Permutation (JS.insert comparefn x l) (x :: l).
Proof.
  induction l as [|y l IH]; simpl; [reflexivity|].
  destruct (JS.SortCompare comparefn x y <=? 0); [reflexivity|].
  rewrite IH. apply perm_swap.
Qed.

Lemma sort_perm (l : list A) : Permutation (JS.sort comparefn l) l.
Proof.
  induction l as [|x l IH]; simpl; [constructor|].
  rewrite insert_perm. now apply perm_skip.
Qed.

Lemma forallb_insert (P : A -> bool) (x : A) (l : list A) :
  forallb P (JS.insert comparefn x l) = P x && forallb P l.
Proof.
  induction l as [|y l IH]; simpl; [reflexivity|].
  destruct (JS.SortCompare comparefn x y <=? 0); simpl; [reflexivity|].
  rewrite IH. destruct (P x), (P y); reflexivity.
Qed.

Lemma forallb_sort (P : A -> bool) (l : list A) :
  forallb P (JS.sort comparefn l) = forallb P l.
Proof.
  induction l as [|x l IH]; simpl; [reflexivity|].
  now rewrite forallb_insert, IH.
Qed.

(** Insertion never moves an element past one it compares equal to: the
    elements selected by [p] keep their order when any two of them compare
    as equal or in order. *)
Lemma filter_insert (p : A -> bool) (x : A) (l : list A) :
  (forall y, p x = true -> p y = true -> JS.SortCompare comparefn x y <= 0) ->
  filter p (JS.insert comparefn x l) = filter p (x :: l).
Proof.
  intros Hle. induction l as [|y l IH]; [reflexivity|].
  cbn [JS.insert].
  destruct (JS.SortCompare comparefn x y <=? 0) eqn:Hc; [reflexivity|].
  cbn [filter] in *. rewrite IH.
  destruct (p x) eqn:Hx, (p y) eqn:Hy; try reflexivity.
  apply Z.leb_gt in Hc. specialize (Hle y eq_refl Hy). lia.
Qed.

End SortFacts.

Lemma split_nonempty (sep : ascii) (a : string) : JS.split sep a <> [].
Proof.
  destruct a as [|c a]; simpl; [discriminate|].
  destruct (Ascii.eqb c sep); [discriminate|].
  destruct (JS.split sep a); discriminate.
Qed.

Lemma split_app (sep : ascii) (a b : string) :
  JS.split sep (a ++ String sep b) = JS.split sep a ++ JS.split sep b.
Proof.
  induction a as [|c a IH]; simpl.
  - now rewrite Ascii.eqb_refl.
  - destruct (Ascii.eqb c sep); [now rewrite IH|].
    rewrite IH. destruct (JS.split sep a) eqn:E; [|reflexivity].
    now apply split_nonempty in E.
Qed.

Lemma split_lacks (sep : ascii) (a : string) :
  lacks sep a = true -> JS.split sep a = [a].
Proof.
  induction a as [|c a IH]; simpl; [reflexivity|].
  destruct (Ascii.eqb c sep); simpl; [discriminate|].
  intros H. now rewrite IH.
Qed.

Lemma new_Date_NaN {host : Host} (y m d h mi : JS.num) :
  y = JS.NaN \/ m = JS.NaN \/ d = JS.NaN \/ h = JS.NaN \/ mi = JS.NaN ->
  JS.new_Date UTC y m d h mi (JS.Fin 0) (JS.Fin 0) = JS.NaN.
Proof.
  intros H. destruct y, m, d, h, mi; try reflexivity.
  now destruct H as [H|[H|[H|[H|H]]]].
Qed.

(** * Facts about the task store *)

Section OrderFacts.
Context {host : Host}.

Lemma SortCompare_tasks (a b : Task.t) :
  JS.SortCompare compareTasks a b =
  match startTime a, startTime b with
  | JS.Fin x, JS.Fin y => x - y
  | _, _ => 0
  end.
Proof.
  unfold JS.SortCompare, compareTasks.
  destruct (startTime a), (startTime b); reflexivity.
Qed.

Lemma notAfter_SortCompare (a b : Task.t) :
  notAfter a b = true -> JS.SortCompare compareTasks a b <= 0.
Proof.
  rewrite SortCompare_tasks. unfold notAfter.
  destruct (startTime a), (startTime b); simpl; try discriminate.
  intros H. apply Z.leb_le in H. lia.
Qed.

Lemma SortCompare_notAfter (a b : Task.t) :
  validTask a = true -> validTask b = true ->
  (JS.SortCompare compareTasks a b <=? 0) = notAfter a b.
Proof.
  rewrite SortCompare_tasks. unfold notAfter, validTask.
  destruct (startTime a), (startTime b); simpl; try discriminate.
  intros _ _. destruct (Z.leb_spec (z - z0) 0), (Z.leb_spec z z0); trivial; lia.
Qed.

Lemma notAfter_total (a b : Task.t) :
  validTask a = true -> validTask b = true ->
  notAfter a b = false -> notAfter b a = true.
Proof.
  unfold notAfter, validTask.
  destruct (startTime a), (startTime b); simpl; try discriminate.
  intros _ _ H. apply Z.leb_gt in H. apply Z.leb_le. lia.
Qed.

Lemma notAfter_trans (a b c : Task.t) :
  notAfter a b = true -> notAfter b c = true -> notAfter a c = true.
Proof.
  unfold notAfter.
  destruct (startTime a), (startTime b), (startTime c); simpl; try discriminate.
  intros H1 H2. apply Z.leb_le in H1, H2. apply Z.leb_le. lia.
Qed.

Lemma ordered_insert (x : Task.t) (l : list Task.t) :
  validTask x = true -> forallb validTask l = true -> ordered l = true ->
  ordered (JS.insert compareTasks x l) = true.
Proof.
  intros Hx. induction l as [|y l IH]; [reflexivity|].
  intros Hl Ho. cbn [forallb ordered] in Hl, Ho.
  apply andb_prop in Hl as [Hy Hl]. apply andb_prop in Ho as [Hyl Ho].
  cbn [JS.insert]. rewrite (SortCompare_notAfter _ _ Hx Hy).
  destruct (notAfter x y) eqn:Hxy.
  - cbn [ordered forallb]. rewrite Hxy, Hyl, Ho. simpl.
    rewrite andb_true_r. apply forallb_forall. intros z Hz.
    apply (notAfter_trans _ y); [assumption|].
    now apply (proj1 (forallb_forall _ _) Hyl).
  - cbn [ordered]. rewrite forallb_insert, Hyl, (IH Hl Ho).
    now rewrite (notAfter_total _ _ Hx Hy Hxy).
Qed.

Lemma sortTasks_ordered (l : list Task.t) :
  forallb validTask l = true -> ordered (sortTasks l) = true.
Proof.
  unfold sortTasks. induction l as [|x l IH]; [reflexivity|].
  cbn [forallb JS.sort fold_right]. intros H. apply andb_prop in H as [Hx Hl].
  apply ordered_insert; [assumption| |now apply IH].
  fold (JS.sort compareTasks l). now rewrite forallb_sort.
Qed.

(** Sorting a collection that is in order changes nothing. *)
Lemma sortTasks_fixed (l : list Task.t) :
  ordered l = true -> sortTasks l = l.
Proof.
  unfold sortTasks. induction l as [|x l IH]; [reflexivity|].
  cbn [ordered JS.sort fold_right]. intros H. apply andb_prop in H as [Hx Hl].
  fold (JS.sort compareTasks l). rewrite (IH Hl).
  destruct l as [|y l]; [reflexivity|]. cbn [JS.insert].
  cbn [forallb] in Hx. apply andb_prop in Hx as [Hxy _].
  apply notAfter_SortCompare in Hxy. apply Z.leb_le in Hxy. now rewrite Hxy.
Qed.

Lemma forallb_filter {A : Type} (P f : A -> bool) (l : list A) :
  forallb P l = true -> forallb P (filter f l) = true.
Proof.
  induction l as [|x l IH]; [reflexivity|]. cbn [forallb filter].
  intros H. apply andb_prop in H as [Hx Hl].
  destruct (f x); cbn [forallb]; [rewrite Hx|]; now apply IH.
Qed.

Lemma ordered_filter (f : Task.t -> bool) (l : list Task.t) :
  ordered l = true -> ordered (filter f l) = true.
Proof.
  induction l as [|x l IH]; [reflexivity|]. cbn [ordered filter].
  intros H. apply andb_prop in H as [Hx Hl].
  destruct (f x); [|now apply IH].
  cbn [ordered]. rewrite (forallb_filter _ _ _ Hx). now apply IH.
Qed.

(** Tasks that start at the same instant keep their relative order. *)
Lemma sortTasks_stable (v : Z) (l : list Task.t) :
  filter (startsAt v) (sortTasks l) = filter (startsAt v) l.
Proof.
  unfold sortTasks. induction l as [|x l IH]; [reflexivity|].
  cbn [JS.sort fold_right]. fold (JS.sort compareTasks l).
  rewrite filter_insert.
  - cbn [filter]. now rewrite IH.
  - intros y Hx Hy. rewrite SortCompare_tasks. unfold startsAt in Hx, Hy.
    destruct (startTime x), (startTime y); simpl in *; try discriminate.
    apply Z.eqb_eq in Hx, Hy. lia.
Qed.

Lemma sortTasks_perm (l : list Task.t) : Permutation (sortTasks l) l.
Proof. apply sort_perm. Qed.

Lemma sortTasks_valid (l : list Task.t) :
  forallb validTask (sortTasks l) = forallb validTask l.
Proof. apply forallb_sort. Qed.

Lemma store_eta (s : Store) : mkStore (tasks s) (alerts s) (issued s) = s.
Proof. now destruct s. Qed.

(** What a mutation leaves in the store: the inserted collection, ordered by
    [sortTasks]; removal and a rejected form keep the order they find. *)
Lemma mutate_tasks (m : Mutation) (s : Store) :
  tasks (mutate m s) = sortTasks (inserted m s) \/
  (tasks (mutate m s) = inserted m s /\
   (ordered (tasks s) = true -> ordered (inserted m s) = true)).
Proof.
  destruct m as [f|i u|i c|d|i]; simpl.
  - unfold handleFormSubmit. destruct (incomplete f); simpl; auto.
  - now left.
  - now left.
  - now left.
  - right. split; [reflexivity|]. apply ordered_filter.
Qed.

Lemma map_unknown (g : Task.t -> Task.t) (taskId : string) (l : list Task.t) :
  (forall task, Task.id task <> taskId -> g task = task) ->
  ~ In taskId (map Task.id l) -> map g l = l.
Proof.
  intros Hg. induction l as [|x l IH]; [reflexivity|]. simpl. intros H.
  rewrite Hg, IH; auto.
Qed.

Lemma filter_unknown (taskId : string) (l : list Task.t) :
  ~ In taskId (map Task.id l) ->
  filter (fun task => negb (String.eqb (Task.id task) taskId)) l = l.
Proof.
  induction l as [|x l IH]; [reflexivity|]. simpl. intros H.
  destruct (String.eqb_spec (Task.id x) taskId) as [E|E]; simpl.
  - exfalso. auto.
  - rewrite IH; auto.
Qed.

End OrderFacts.

(** * Facts about the alert channel *)

Section ChannelFacts.
Context {host : Host}.

Lemma triggerNotification_alerts (task : Task.t) (s : Store) :
  alerts (triggerNotification task s) =
  if existsb (sameTask (Task.id task)) (alerts s) then alerts s
  else alerts s ++ [newAlert task (issued s)].
Proof.
  unfold triggerNotification. fold (sameTask (Task.id task)).
  now destruct (existsb (sameTask (Task.id task)) (alerts s)).
Qed.

Lemma triggerNotification_tasks (task : Task.t) (s : Store) :
  tasks (triggerNotification task s) = tasks s.
Proof.
  unfold triggerNotification.
  now destruct (existsb _ (alerts s)).
Qed.

Lemma existsb_alertsFor (taskId : string) (l : list Alert.t) :
  existsb (sameTask taskId) l =
  match alertsFor taskId l with [] => false | _ :: _ => true end.
Proof.
  unfold alertsFor. induction l as [|a l IH]; [reflexivity|]. simpl.
  now destruct (sameTask taskId a).
Qed.

Lemma sameTask_newAlert (taskId : string) (task : Task.t) (n : nat) :
  sameTask taskId (newAlert task n) = String.eqb (Task.id task) taskId.
Proof. reflexivity. Qed.

(** The live alerts of one task after [triggerNotification]. *)
Lemma alertsFor_trigger (taskId : string) (task : Task.t) (s : Store) :
  alertsFor taskId (alerts (triggerNotification task s)) =
  if String.eqb (Task.id task) taskId then
    match alertsFor taskId (alerts s) with
    | [] => [newAlert task (issued s)]
    | live => live
    end
  else alertsFor taskId (alerts s).
Proof.
  rewrite triggerNotification_alerts.
  destruct (String.eqb_spec (Task.id task) taskId) as [E|E].
  - subst taskId. rewrite existsb_alertsFor.
    destruct (alertsFor (Task.id task) (alerts s)) eqn:El; [|assumption].
    unfold alertsFor in *. rewrite filter_app, El. simpl.
    now rewrite sameTask_newAlert, String.eqb_refl.
  - destruct (existsb _ (alerts s)); [reflexivity|].
    unfold alertsFor. rewrite filter_app. simpl. rewrite sameTask_newAlert.
    apply String.eqb_neq in E. rewrite E. apply app_nil_r.
Qed.

Lemma notifyAll_tasks (fired : list Task.t) (s : Store) :
  tasks (notifyAll fired s) = tasks s.
Proof.
  revert s. induction fired as [|t fired IH]; intros s; [reflexivity|].
  simpl. now rewrite IH, triggerNotification_tasks.
Qed.

(** Once a task has a live alert, no notification adds another. *)
Lemma alertsFor_notifyAll_live (taskId : string) (fired : list Task.t) (s : Store) :
  alertsFor taskId (alerts s) <> [] ->
  alertsFor taskId (alerts (notifyAll fired s)) = alertsFor taskId (alerts s).
Proof.
  revert s. induction fired as [|t fired IH]; intros s H; [reflexivity|].
  simpl.
  assert (E : alertsFor taskId (alerts (triggerNotification t s))
              = alertsFor taskId (alerts s)).
  { rewrite alertsFor_trigger. destruct (String.eqb (Task.id t) taskId); [|reflexivity].
    now destruct (alertsFor taskId (alerts s)). }
  rewrite IH; rewrite E; auto.
Qed.

(** Notifications for other tasks leave a task's alerts alone. *)
Lemma alertsFor_notifyAll_others (taskId : string) (fired : list Task.t) (s : Store) :
  (forall t, In t fired -> Task.id t <> taskId) ->
  alertsFor taskId (alerts (notifyAll fired s)) = alertsFor taskId (alerts s).
Proof.
  revert s. induction fired as [|t fired IH]; intros s H; [reflexivity|].
  simpl. rewrite IH by (intros; apply H; now right).
  rewrite alertsFor_trigger.
  destruct (String.eqb_spec (Task.id t) taskId) as [E|E]; [|reflexivity].
  exfalso. apply (H t); [now left|assumption].
Qed.

(** A task without a live alert gets exactly one when it is notified, however
    many of the fired tasks carry its identifier. *)
Lemma alertsFor_notifyAll_first (taskId : string) (fired : list Task.t) (s : Store) :
  alertsFor taskId (alerts s) = [] ->
  (exists t, In t fired /\ Task.id t = taskId) ->
  List.length (alertsFor taskId (alerts (notifyAll fired s))) = 1%nat.
Proof.
  revert s. induction fired as [|t fired IH]; intros s Hnone [t0 [Hin Hid]].
  - destruct Hin.
  - simpl. destruct (String.eqb_spec (Task.id t) taskId) as [E|E].
    + assert (L : alertsFor taskId (alerts (triggerNotification t s))
                  = [newAlert t (issued s)]).
      { rewrite alertsFor_trigger, Hnone.
        apply String.eqb_eq in E. now rewrite E. }
      rewrite alertsFor_notifyAll_live; rewrite L; [reflexivity|discriminate].
    + apply IH.
      * rewrite alertsFor_trigger. apply String.eqb_neq in E. now rewrite E.
      * destruct Hin as [->|Hin]; [contradiction|]. now exists t0.
Qed.

(** The notifications only append to the channel. *)
Lemma notifyAll_appends (fired : list Task.t) (s : Store) :
  exists added, alerts (notifyAll fired s) = alerts s ++ added.
Proof.
  revert s. induction fired as [|t fired IH]; intros s.
  - exists []. simpl. now rewrite app_nil_r.
  - simpl. destruct (IH (triggerNotification t s)) as [added A].
    rewrite A, triggerNotification_alerts.
    destruct (existsb _ (alerts s)).
    + now exists added.
    + exists (newAlert t (issued s) :: added). now rewrite <- app_assoc.
Qed.

Lemma alertsFor_appended (taskId : string) (old added : list Alert.t) :
  alertsFor taskId (old ++ added) = alertsFor taskId old ->
  alertsFor taskId added = [].
Proof.
  unfold alertsFor. rewrite filter_app. intros H.
  apply (app_inv_head (filter (sameTask taskId) old)). now rewrite app_nil_r.
Qed.

(** While an alert of a task is live, the notifications emit none for it. *)
Lemma notifyAll_emits_none (taskId : string) (fired : list Task.t) (s : Store) :
  alertsFor taskId (alerts s) <> [] ->
  exists added,
    alerts (notifyAll fired s) = alerts s ++ added /\
    alertsFor taskId added = [].
Proof.
  intros Hlive. destruct (notifyAll_appends fired s) as [added A].
  exists added. split; [exact A|].
  apply (alertsFor_appended taskId (alerts s)). rewrite <- A.
  now apply alertsFor_notifyAll_live.
Qed.

(** When no alert of a task is live and a fired task carries its
    identifier, the notifications emit exactly one alert for it. *)
Lemma notifyAll_emits_one (taskId : string) (fired : list Task.t) (s : Store) :
  alertsFor taskId (alerts s) = [] ->
  (exists t, In t fired /\ Task.id t = taskId) ->
  exists added,
    alerts (notifyAll fired s) = alerts s ++ added /\
    exists item, alertsFor taskId added = [item] /\ Alert.taskId item = taskId.
Proof.
  intros Hnone Hfired. destruct (notifyAll_appends fired s) as [added A].
  exists added. split; [exact A|].
  pose proof (alertsFor_notifyAll_first taskId fired s Hnone Hfired) as L.
  rewrite A in L. unfold alertsFor in *. rewrite filter_app, Hnone in L.
  cbn [app] in L.
  destruct (filter (sameTask taskId) added) as [|item [|other rest]] eqn:E;
    try discriminate L.
  exists item. split; [reflexivity|].
  assert (Hi : In item (filter (sameTask taskId) added)) by (rewrite E; now left).
  apply filter_In in Hi as [_ Hi]. now apply String.eqb_eq in Hi.
Qed.

(** Every alert after the notifications was live before or belongs to one of
    the fired tasks. *)
Lemma notifyAll_origin (fired : list Task.t) (s : Store) (item : Alert.t) :
  In item (alerts (notifyAll fired s)) ->
  In item (alerts s) \/ exists t, In t fired /\ Alert.taskId item = Task.id t.
Proof.
  revert s. induction fired as [|t fired IH]; intros s H; [now left|].
  simpl in H. apply IH in H as [H|[t' [Hin Hid]]].
  - rewrite triggerNotification_alerts in H.
    destruct (existsb _ (alerts s)); [now left|].
    apply in_app_or in H as [H|[<-|[]]]; [now left|].
    right. exists t. split; [now left|reflexivity].
  - right. exists t'. split; [now right|assumption].
Qed.


Lemma onePerTask_snoc (l : list Alert.t) (item : Alert.t) :
  onePerTask l = true -> existsb (sameTask (Alert.taskId item)) l = false ->
  onePerTask (l ++ [item]) = true.
Proof.
  induction l as [|a l IH]; [reflexivity|]. simpl.
  intros H Hn. apply andb_prop in H as [Ha Hl].
  apply orb_false_elim in Hn as [Hai Hn].
  rewrite (IH Hl Hn), andb_true_r, existsb_app. simpl.
  apply negb_true_iff in Ha. rewrite Ha. simpl. rewrite orb_false_r.
  unfold sameTask in *. now rewrite String.eqb_sym, Hai.
Qed.

Lemma existsb_filter_false {A : Type} (p f : A -> bool) (l : list A) :
  existsb p l = false -> existsb p (filter f l) = false.
Proof.
  induction l as [|a l IH]; [reflexivity|]. simpl.
  intros H. apply orb_false_elim in H as [Ha Hl].
  destruct (f a); simpl; [rewrite Ha|]; now apply IH.
Qed.

Lemma onePerTask_filter (f : Alert.t -> bool) (l : list Alert.t) :
  onePerTask l = true -> onePerTask (filter f l) = true.
Proof.
  induction l as [|a l IH]; [reflexivity|]. simpl.
  intros H. apply andb_prop in H as [Ha Hl].
  destruct (f a); [|now apply IH]. simpl. rewrite (IH Hl), andb_true_r.
  apply negb_true_iff in Ha. apply negb_true_iff.
  now apply existsb_filter_false.
Qed.

Lemma onePerTask_trigger (task : Task.t) (s : Store) :
  onePerTask (alerts s) = true ->
  onePerTask (alerts (triggerNotification task s)) = true.
Proof.
  intros H. rewrite triggerNotification_alerts.
  destruct (existsb _ (alerts s)) eqn:E; [assumption|].
  now apply onePerTask_snoc.
Qed.

Lemma onePerTask_notifyAll (fired : list Task.t) (s : Store) :
  onePerTask (alerts s) = true ->
  onePerTask (alerts (notifyAll fired s)) = true.
Proof.
  revert s. induction fired as [|t fired IH]; intros s H; [assumption|].
  simpl. apply IH. now apply onePerTask_trigger.
Qed.

End ChannelFacts.

(** * The scheduling engine *)

Section TickFacts.
Context {host : Host}.

(** The interval callback maps [tickTask] over the collection, raises
    [touched] when a task qualifies, and notifies the qualifying tasks in
    the order of the collection. *)
Lemma tickMap_spec (nowTime : Z) (current : list Task.t) (s : Store) :
  tickMap nowTime current s =
  (map (tickTask nowTime) current,
   existsb (qualifies nowTime) current,
   notifyAll (filter (qualifies nowTime) current) s).
Proof.
  revert s. induction current as [|task rest IH]; intros s; [reflexivity|].
  cbn [tickMap map existsb filter]. unfold tickTask at 1.
  assert (Q : qualifies nowTime task =
              negb (Task.completed task || Task.notified task)
              && JS.ge (JS.Fin nowTime) (triggerTime task)) by reflexivity.
  destruct (Task.completed task || Task.notified task);
    [|destruct (JS.ge (JS.Fin nowTime) (triggerTime task))];
    cbn [negb andb] in Q; rewrite Q, IH; reflexivity.
Qed.

Lemma tick_alerts (nowTime : Z) (s : Store) :
  alerts (tick nowTime s) =
  alerts (notifyAll (filter (qualifies nowTime) (tasks s)) s).
Proof. unfold tick. now rewrite tickMap_spec. Qed.

Lemma tick_tasks (nowTime : Z) (s : Store) :
  tasks (tick nowTime s) =
  if existsb (qualifies nowTime) (tasks s)
  then sortTasks (map (tickTask nowTime) (tasks s))
  else tasks s.
Proof.
  unfold tick. rewrite tickMap_spec. cbn [setTasks tasks].
  destruct (existsb _ (tasks s)); [reflexivity|apply notifyAll_tasks].
Qed.

Lemma tick_keeps (nowTime : Z) (s : Store) (task : Task.t) :
  In task (tasks s) -> In (tickTask nowTime task) (tasks (tick nowTime s)).
Proof.
  intros Hin. rewrite tick_tasks.
  destruct (existsb (qualifies nowTime) (tasks s)) eqn:E.
  - apply (Permutation_in _ (Permutation_sym (sortTasks_perm _))).
    now apply in_map.
  - unfold tickTask.
    destruct (qualifies nowTime task) eqn:Q; [|assumption].
    assert (existsb (qualifies nowTime) (tasks s) = true)
      by (apply existsb_exists; eauto).
    congruence.
Qed.

Lemma qualifies_marked (nowTime : Z) (task : Task.t) :
  qualifies nowTime (markNotified task) = false.
Proof.
  unfold qualifies, markNotified. simpl. now rewrite orb_true_r.
Qed.

(** A task whose date or time does not parse never qualifies: its trigger
    time is NaN and the comparison with it is false. *)
Lemma invalid_start_never_fires (nowTime : Z) (task : Task.t) :
  validTask task = false -> qualifies nowTime task = false.
Proof.
  unfold validTask, qualifies, triggerTime. intros H.
  destruct (startTime task); [|discriminate]. simpl. apply andb_false_r.
Qed.

(** A task that does not qualify, and is the only one with its identifier,
    sees no change among its live alerts. *)
Lemma tick_silent (nowTime : Z) (s : Store) (task : Task.t) :
  qualifies nowTime task = false -> soleOwner task (tasks s) ->
  alertsFor (Task.id task) (alerts (tick nowTime s)) =
  alertsFor (Task.id task) (alerts s).
Proof.
  intros Q Hsole. rewrite tick_alerts.
  apply alertsFor_notifyAll_others. intros t Ht Hid.
  apply filter_In in Ht as [Hin Hq].
  rewrite (Hsole t Hin Hid) in Hq. congruence.
Qed.

Lemma mutate_alerts (m : Mutation) (s : Store) : alerts (mutate m s) = alerts s.
Proof.
  destruct m; simpl; try reflexivity.
  unfold handleFormSubmit. now destruct (incomplete formState).
Qed.

Lemma run_onePerTask (s : Store) (e : Event) :
  onePerTask (alerts s) = true -> onePerTask (alerts (run s e)) = true.
Proof.
  intros H. destruct e as [m|nowTime|alertId|parsed]; simpl.
  - now rewrite mutate_alerts.
  - rewrite tick_alerts. now apply onePerTask_notifyAll.
  - now apply onePerTask_filter.
  - assumption.
Qed.

Lemma fold_run_onePerTask (events : list Event) (s : Store) :
  onePerTask (alerts s) = true ->
  onePerTask (alerts (fold_left run events s)) = true.
Proof.
  revert s. induction events as [|e events IH]; intros s H; [assumption|].
  simpl. apply IH. now apply run_onePerTask.
Qed.


(** What a tick emits for a task that qualifies: one alert with its
    identifier when none is live, and none when one is. *)
Lemma tick_emits (nowTime : Z) (s : Store) (task : Task.t) :
  In task (tasks s) ->
  qualifies nowTime task = true ->
  exists added,
    alerts (tick nowTime s) = alerts s ++ added /\
    (alertsFor (Task.id task) (alerts s) = [] ->
       exists item, alertsFor (Task.id task) added = [item] /\
                    Alert.taskId item = Task.id task) /\
    (alertsFor (Task.id task) (alerts s) <> [] ->
       alertsFor (Task.id task) added = []).
Proof.
  intros Hin Q. rewrite tick_alerts.
  set (fired := filter (qualifies nowTime) (tasks s)).
  assert (Hfired : exists t, In t fired /\ Task.id t = Task.id task).
  { exists task. split; [|reflexivity]. now apply filter_In. }
  destruct (alertsFor (Task.id task) (alerts s)) as [|live rest] eqn:Elive.
  - destruct (notifyAll_emits_one (Task.id task) fired s Elive Hfired)
      as [added [A One]].
    exists added. split; [exact A|]. split; [intros _; exact One|].
    intros H. now contradiction H.
  - assert (Hlive : alertsFor (Task.id task) (alerts s) <> [])
      by (rewrite Elive; discriminate).
    destruct (notifyAll_emits_none (Task.id task) fired s Hlive) as [added [A None]].
    exists added. split; [exact A|]. split; [discriminate|].
    intros _. exact None.
Qed.


(** A tick emits nothing for a task that does not qualify and is the only
    one with its identifier. *)
Lemma tick_emits_none_idle (nowTime : Z) (s : Store) (task : Task.t) :
  qualifies nowTime task = false -> soleOwner task (tasks s) ->
  exists added,
    alerts (tick nowTime s) = alerts s ++ added /\
    alertsFor (Task.id task) added = [].
Proof.
  intros Q Hsole.
  pose proof (tick_silent nowTime s task Q Hsole) as E.
  rewrite tick_alerts in *.
  destruct (notifyAll_appends (filter (qualifies nowTime) (tasks s)) s) as [added A].
  exists added. split; [exact A|].
  apply (alertsFor_appended _ (alerts s)). now rewrite <- A.
Qed.


(** C2, amended.  With start instant [S] and lead time [L] minutes, a
    pending task is left alone by a tick at [now < S - L*60000]: it stays as
    it is and, being the only task with its identifier, the tick emits no
    alert for it.  A tick at [now >= S - L*60000] fires it: the task is
    marked notified, and the tick emits an alert with its identifier when
    none is live; when an alert of the task is still live it emits none. *)
Theorem no_firing_before_trigger (nowTime S : Z) (s : Store) (task : Task.t) :
  In task (tasks s) ->
  Task.completed task = false ->
  Task.notified task = false ->
  combineDateTime (Task.date task) (Task.time task) = JS.Fin S ->
  (nowTime < S - Task.remindBefore task * 60000 ->
     qualifies nowTime task = false /\
     In task (tasks (tick nowTime s)) /\
     (soleOwner task (tasks s) ->
      alertsFor (Task.id task) (alerts (tick nowTime s)) =
      alertsFor (Task.id task) (alerts s) /\
      exists added,
        alerts (tick nowTime s) = alerts s ++ added /\
        alertsFor (Task.id task) added = [])) /\
  (S - Task.remindBefore task * 60000 <= nowTime ->
     qualifies nowTime task = true /\
     In (Task.mk (Task.id task) (Task.title task) (Task.description task)
           (Task.date task) (Task.time task) (Task.remindBefore task) false true)
        (tasks (tick nowTime s)) /\
     exists added,
       alerts (tick nowTime s) = alerts s ++ added /\
       (alertsFor (Task.id task) (alerts s) = [] ->
          exists item, alertsFor (Task.id task) added = [item] /\
                       Alert.taskId item = Task.id task) /\
       (alertsFor (Task.id task) (alerts s) <> [] ->
          alertsFor (Task.id task) added = [])).
Proof.
  intros Hin Hc Hn HS.
  assert (T : triggerTime task = JS.Fin (S - Task.remindBefore task * 60000)).
  { unfold triggerTime, startTime. rewrite HS. simpl. f_equal. lia. }
  split; intros Hnow.
  - assert (Q : qualifies nowTime task = false).
    { unfold qualifies. rewrite T, Hc, Hn. simpl. apply Z.leb_gt. lia. }
    split; [exact Q|]. split.
    + pose proof (tick_keeps nowTime s task Hin) as K.
      unfold tickTask in K. now rewrite Q in K.
    + intros Hsole. split; [now apply tick_silent|].
      now apply tick_emits_none_idle.
  - assert (Q : qualifies nowTime task = true).
    { unfold qualifies. rewrite T, Hc, Hn. simpl. apply Z.leb_le. lia. }
    split; [exact Q|]. split.
    + pose proof (tick_keeps nowTime s task Hin) as K.
      unfold tickTask in K. rewrite Q in K.
      unfold markNotified in K. now rewrite Hc in K.
    + now apply tick_emits.
Qed.

(** C4. A completed task is never evaluated: the tick returns it as it is,
    notified flag included, and emits nothing for it.  Every alert the tick
    adds belongs to a task that is not completed. *)
Theorem completed_tasks_never_fire (nowTime : Z) (s : Store) (task : Task.t) :
  In task (tasks s) ->
  Task.completed task = true ->
  tickTask nowTime task = task /\
  In task (tasks (tick nowTime s)) /\
  ~ In task (filter (qualifies nowTime) (tasks s)) /\
  (soleOwner task (tasks s) ->
   alertsFor (Task.id task) (alerts (tick nowTime s)) =
   alertsFor (Task.id task) (alerts s)) /\
  (forall item, In item (alerts (tick nowTime s)) ->
     In item (alerts s) \/
     exists t, In t (tasks s) /\ Task.completed t = false /\
               Task.notified t = false /\ Alert.taskId item = Task.id t).
Proof.
  intros Hin Hc.
  assert (Q : qualifies nowTime task = false)
    by (unfold qualifies; now rewrite Hc).
  assert (K : tickTask nowTime task = task)
    by (unfold tickTask; now rewrite Q).
  split; [exact K|]. split; [|split; [|split]].
  - rewrite <- K at 1. now apply tick_keeps.
  - intros H. apply filter_In in H as [_ H]. congruence.
  - now apply tick_silent.
  - intros item Hitem. rewrite tick_alerts in Hitem.
    apply notifyAll_origin in Hitem as [H|[t [Ht Hid]]]; [now left|].
    right. exists t. apply filter_In in Ht as [Ht Hq].
    unfold qualifies in Hq. apply andb_prop in Hq as [Hq _].
    apply negb_true_iff, orb_false_elim in Hq as [Hq1 Hq2]. auto.
Qed.

End TickFacts.

(** * The task store and the alert channel *)

Section StoreTheorems.
Context {host : Host}.

(** Every event keeps an ordered collection ordered, as long as the tasks
    it leaves all have a valid start instant. *)
Lemma run_keeps_order (s : Store) (e : Event) :
  ordered (tasks s) = true ->
  forallb validTask (tasks (run s e)) = true ->
  ordered (tasks (run s e)) = true.
Proof.
  intros Ho Hv. destruct e as [m|nowTime|alertId|parsed]; simpl in *.
  - destruct (mutate_tasks m s) as [E|[E Hkeep]]; rewrite E in *.
    + apply sortTasks_ordered. now rewrite sortTasks_valid in Hv.
    + now apply Hkeep.
  - rewrite tick_tasks in *.
    destruct (existsb (qualifies nowTime) (tasks s)); [|assumption].
    apply sortTasks_ordered. now rewrite sortTasks_valid in Hv.
  - assumption.
  - apply sortTasks_ordered. now rewrite sortTasks_valid in Hv.
Qed.

(** C5. The alert list holds at most one live alert per task.
    [triggerNotification] appends an alert only when none carries the task's
    identifier, and otherwise changes nothing; it and [acknowledgeAlert]
    preserve the invariant, as does every event, so that it holds after any
    sequence of events from the initial state. *)
Theorem one_live_alert_per_task (s : Store) :
  onePerTask (alerts s) = true ->
  (forall task,
     onePerTask (alerts (triggerNotification task s)) = true /\
     (alertsFor (Task.id task) (alerts s) <> [] ->
        triggerNotification task s = s) /\
     (alertsFor (Task.id task) (alerts s) = [] ->
        alerts (triggerNotification task s) =
        alerts s ++ [newAlert task (issued s)])) /\
  (forall alertId, onePerTask (alerts (acknowledgeAlert alertId s)) = true) /\
  (forall e, onePerTask (alerts (run s e)) = true) /\
  (forall events, onePerTask (alerts (runAll events)) = true).
Proof.
  intros H. repeat split.
  - now apply onePerTask_trigger.
  - intros Hlive. unfold triggerNotification. fold (sameTask (Task.id task)).
    rewrite existsb_alertsFor.
    now destruct (alertsFor (Task.id task) (alerts s)).
  - intros Hnone. rewrite triggerNotification_alerts, existsb_alertsFor.
    now rewrite Hnone.
  - intros alertId. now apply onePerTask_filter.
  - intros e. now apply run_onePerTask.
  - intros events. now apply fold_run_onePerTask.
Qed.

(** C6, amended.  Every mutation that sorts (creation, update, completion
    change, replacement of a date) leaves the collection in ascending order
    of [combineDateTime], whatever order it found, provided the resulting
    tasks all have a valid start instant; removal, which does not sort, and
    a rejected form, which changes nothing, leave it in order when they
    found it so.  In each case the tasks that share an instant keep the
    order in which they were inserted. *)
Theorem mutation_keeps_order (m : Mutation) (s : Store) :
  forallb validTask (tasks (mutate m s)) = true ->
  (skipsSort m = true -> ordered (tasks s) = true) ->
  ordered (tasks (mutate m s)) = true /\
  forall v, filter (startsAt v) (tasks (mutate m s)) =
            filter (startsAt v) (inserted m s).
Proof.
  intros Hv Ho.
  assert (E : tasks (mutate m s) =
              if skipsSort m then inserted m s else sortTasks (inserted m s)).
  { destruct m as [f|i u|i c|d|i]; simpl; try reflexivity.
    unfold handleFormSubmit. now destruct (incomplete f). }
  rewrite E in *. destruct (skipsSort m) eqn:K.
  - split; [|reflexivity]. specialize (Ho eq_refl).
    destruct m as [f|i u|i c|d|i]; simpl in K; try discriminate K; simpl.
    + now rewrite K.
    + now apply ordered_filter.
  - split.
    + apply sortTasks_ordered. now rewrite sortTasks_valid in Hv.
    + intros v. apply sortTasks_stable.
Qed.

(** C7. Replacing the tasks of a date yields exactly the prior tasks of the
    other dates together with the replacement list; [resetTemplateForDay]
    does so with the five template tasks, dated that day. *)
Theorem template_replace_is_destructive (date : string) :
  (forall newTasks prev,
     let kept := filter (fun task => negb (String.eqb (Task.date task) date)) prev in
     Permutation (replaceForDate date newTasks prev) (kept ++ newTasks) /\
     (forall task, In task prev -> Task.date task <> date ->
                   In task (replaceForDate date newTasks prev)) /\
     (forall task, In task (replaceForDate date newTasks prev) ->
                   Task.date task = date -> In task newTasks)) /\
  (forall s,
     tasks (resetTemplateForDay date s) =
     replaceForDate date (instantiate date templateBlueprint (issued s)) (tasks s) /\
     List.length (instantiate date templateBlueprint (issued s)) = 5%nat /\
     (forall task, In task (instantiate date templateBlueprint (issued s)) ->
                   Task.date task = date)).
Proof.
  split.
  - intros newTasks prev kept.
    assert (P : Permutation (replaceForDate date newTasks prev) (kept ++ newTasks))
      by apply sortTasks_perm.
    split; [exact P|]. split.
    + intros task Hin Hd. apply (Permutation_in _ (Permutation_sym P)).
      apply in_or_app. left. apply filter_In. split; [assumption|].
      apply negb_true_iff. now apply String.eqb_neq.
    + intros task Hin Hd. apply (Permutation_in _ P) in Hin.
      apply in_app_or in Hin as [Hin|Hin]; [|assumption].
      apply filter_In in Hin as [_ Hin]. apply negb_true_iff in Hin.
      apply String.eqb_neq in Hin. contradiction.
  - intros s. split; [reflexivity|]. split; [reflexivity|].
    simpl. intros task H.
    repeat (destruct H as [<-|H]; [reflexivity|]). destruct H.
Qed.

(** The store with its collection sorted again: the same tasks, the same
    alerts, and the same store exactly when sorting changes nothing, as on
    a collection in ascending order. *)
Lemma resorted_store (s : Store) :
  let s' := mkStore (sortTasks (tasks s)) (alerts s) (issued s) in
  tasks s' = sortTasks (tasks s) /\
  Permutation (tasks s') (tasks s) /\
  alerts s' = alerts s /\
  (s' = s <-> sortTasks (tasks s) = tasks s) /\
  (ordered (tasks s) = true -> s' = s).
Proof.
  intros s'. split; [reflexivity|]. split; [apply sortTasks_perm|].
  split; [reflexivity|]. split; [split|].
  - intros H. now apply (f_equal tasks) in H.
  - intros H. unfold s'. rewrite H. apply store_eta.
  - intros H. unfold s'. rewrite (sortTasks_fixed _ H). apply store_eta.
Qed.

(** C9, amended.  For an identifier that no task carries, a removal leaves
    the store as it is, whatever the collection.  An update and a
    completion change leave every task as it is and return the collection
    as [sortTasks] orders it: the store is unchanged exactly when sorting
    the collection changes nothing, as it does on every collection in
    ascending order. *)
Theorem unknown_id_is_noop (taskId : string) (s : Store) :
  ~ In taskId (map Task.id (tasks s)) ->
  handleTaskRemoval taskId s = s /\
  (forall updates,
     tasks (handleTaskUpdate taskId updates s) = sortTasks (tasks s) /\
     Permutation (tasks (handleTaskUpdate taskId updates s)) (tasks s) /\
     alerts (handleTaskUpdate taskId updates s) = alerts s /\
     (handleTaskUpdate taskId updates s = s <-> sortTasks (tasks s) = tasks s) /\
     (ordered (tasks s) = true -> handleTaskUpdate taskId updates s = s)) /\
  (forall completed,
     tasks (handleTaskCompletion taskId completed s) = sortTasks (tasks s) /\
     Permutation (tasks (handleTaskCompletion taskId completed s)) (tasks s) /\
     alerts (handleTaskCompletion taskId completed s) = alerts s /\
     (handleTaskCompletion taskId completed s = s <->
      sortTasks (tasks s) = tasks s) /\
     (ordered (tasks s) = true -> handleTaskCompletion taskId completed s = s)).
Proof.
  intros Hid. split; [|split].
  - unfold handleTaskRemoval, setTasks.
    now rewrite filter_unknown, store_eta.
  - intros updates.
    assert (E : handleTaskUpdate taskId updates s =
                mkStore (sortTasks (tasks s)) (alerts s) (issued s)).
    { unfold handleTaskUpdate, setTasks. rewrite (map_unknown _ taskId); auto.
      intros task Hne. unfold updateTask. apply String.eqb_neq in Hne.
      now rewrite Hne. }
    rewrite E. apply resorted_store.
  - intros completed.
    assert (E : handleTaskCompletion taskId completed s =
                mkStore (sortTasks (tasks s)) (alerts s) (issued s)).
    { unfold handleTaskCompletion, setTasks. rewrite (map_unknown _ taskId); auto.
      intros task Hne. unfold setCompleted. apply String.eqb_neq in Hne.
      now rewrite Hne. }
    rewrite E. apply resorted_store.
Qed.

(** Whatever the collection, removal of an unknown identifier is a no-op and
    the two other operations return the collection sorted again. *)
Lemma unknown_id_resorts (taskId : string) (s : Store) :
  ~ In taskId (map Task.id (tasks s)) ->
  (forall updates, tasks (handleTaskUpdate taskId updates s) = sortTasks (tasks s)) /\
  handleTaskRemoval taskId s = s /\
  (forall completed,
     tasks (handleTaskCompletion taskId completed s) = sortTasks (tasks s)).
Proof.
  intros Hid. repeat split.
  - intros updates. simpl. rewrite (map_unknown _ taskId); auto.
    intros task Hne. unfold updateTask. apply String.eqb_neq in Hne. now rewrite Hne.
  - unfold handleTaskRemoval, setTasks.
    now rewrite filter_unknown, store_eta.
  - intros completed. simpl. rewrite (map_unknown _ taskId); auto.
    intros task Hne. unfold setCompleted. apply String.eqb_neq in Hne. now rewrite Hne.
Qed.

(** An update that carries a non-empty date or time re-arms the task. *)
Lemma update_rearms (updates : Updates.t) (task : Task.t) :
  JS.truthy_opt (Updates.time updates) || JS.truthy_opt (Updates.date updates) = true ->
  Task.notified (applyUpdates updates task) = false.
Proof. intros H. unfold applyUpdates. simpl. now rewrite H. Qed.

(** An update whose date and time are absent or empty keeps the flag. *)
Lemma update_keeps_flag (updates : Updates.t) (task : Task.t) :
  JS.truthy_opt (Updates.time updates) || JS.truthy_opt (Updates.date updates) = false ->
  Task.notified (applyUpdates updates task) = Task.notified task.
Proof. intros H. unfold applyUpdates. simpl. now rewrite H. Qed.

(** C10. An update with neither a date nor a time keeps the notified flag of
    every task, whatever else the payload holds, a [notified] value
    included. *)
Theorem update_without_schedule_keeps_notified
  (taskId : string) (updates : Updates.t) (s : Store) :
  Updates.date updates = None ->
  Updates.time updates = None ->
  (forall task,
     Task.notified (updateTask taskId updates task) = Task.notified task) /\
  Permutation (tasks (handleTaskUpdate taskId updates s))
              (map (updateTask taskId updates) (tasks s)) /\
  (forall task', In task' (tasks (handleTaskUpdate taskId updates s)) ->
     exists task, In task (tasks s) /\ task' = updateTask taskId updates task /\
                  Task.notified task' = Task.notified task).
Proof.
  intros Hd Ht.
  assert (K : forall task,
             Task.notified (updateTask taskId updates task) = Task.notified task).
  { intros task. unfold updateTask.
    destruct (String.eqb (Task.id task) taskId); [|reflexivity].
    apply update_keeps_flag. now rewrite Hd, Ht. }
  assert (P : Permutation (tasks (handleTaskUpdate taskId updates s))
                          (map (updateTask taskId updates) (tasks s)))
    by apply sortTasks_perm.
  split; [exact K|]. split; [exact P|].
  intros task' Hin. apply (Permutation_in _ P) in Hin.
  apply in_map_iff in Hin as [task [<- Hin]].
  exists task. auto.
Qed.

End StoreTheorems.

(** * Time utilities *)

Section CombineFacts.
Context {host : Host}.

Lemma nth_map_Number (parts : list string) (i : nat) (part : string) :
  nth_error parts i = Some part ->
  nth_error (map JS.Number parts) i = Some (JS.Number part) /\
  nth i (map JS.Number parts) JS.NaN = JS.Number part.
Proof.
  revert i. induction parts as [|p parts IH]; intros [|i] H; try discriminate.
  - injection H as ->. now split.
  - simpl in *. now apply IH.
Qed.

(** C8, amended.  [combineDateTime] is total.  Parts that are missing take
    a default: a time without minutes is read with minute 00 and the empty
    time as 00:00; a date without month and day, or without day, is read
    with 1 for each.  A part that is present and is not a number is not
    replaced: the result is then the invalid date, whose time value is
    NaN. *)
Theorem combine_defaults_missing_parts (date time : string) :
  (exists v, combineDateTime date time = v) /\
  (lacks ":" time = true ->
     combineDateTime date time = combineDateTime date (time ++ ":00")) /\
  combineDateTime date "" = combineDateTime date "00:00" /\
  (lacks "-" date = true ->
     combineDateTime date time = combineDateTime (date ++ "-1-1") time) /\
  (forall y m, lacks "-" y = true -> lacks "-" m = true ->
     date = (y ++ "-" ++ m)%string ->
     combineDateTime date time = combineDateTime (date ++ "-1") time) /\
  (JS.Number (timePart 0 time) = JS.NaN \/
   JS.Number (timePart 1 time) = JS.NaN \/
   (exists i part, (i < 3)%nat /\ datePart i date = Some part /\
                   JS.Number part = JS.NaN) ->
   combineDateTime date time = JS.NaN).
Proof.
  split; [now eexists|]. split; [|split; [|split; [|split]]].
  - intros H. unfold combineDateTime.
    change (time ++ ":00")%string with (time ++ String ":" "00")%string.
    now rewrite split_app, (split_lacks _ _ H).
  - reflexivity.
  - intros H. unfold combineDateTime.
    change (date ++ "-1-1")%string with (date ++ String "-" "1-1")%string.
    now rewrite split_app, (split_lacks _ _ H).
  - intros y m Hy Hm ->. unfold combineDateTime.
    change ((y ++ "-" ++ m) ++ "-1")%string
      with ((y ++ String "-" m) ++ String "-" "1")%string.
    change (y ++ "-" ++ m)%string with (y ++ String "-" m)%string.
    now rewrite !split_app, (split_lacks _ _ Hy), (split_lacks _ _ Hm).
  - intros H. unfold combineDateTime. apply new_Date_NaN.
    destruct H as [H|[H|[i [part [Hi [Hp Hn]]]]]].
    + now right; right; right; left.
    + now right; right; right; right.
    + unfold datePart in Hp.
      destruct (nth_map_Number _ _ _ Hp) as [E1 E2].
      destruct i as [|[|[|i]]]; [| | |lia].
      * left. now rewrite E2.
      * right; left. now rewrite E1, Hn.
      * right; right; left. now rewrite E1, Hn.
Qed.

End CombineFacts.

(** * The model on sample data, with local time UTC *)

Example split_examples :
  JS.split ":" "07:30" = ["07"; "30"]%string /\
  JS.split ":" "7" = ["7"]%string /\
  JS.split ":" "" = [""]%string /\
  JS.split "-" "2024-01-02" = ["2024"; "01"; "02"]%string /\
  JS.split "-" "2024-" = ["2024"; ""]%string.
Proof. repeat split. Qed.

Example Number_examples :
  JS.Number "07" = JS.Fin 7 /\ JS.Number "" = JS.Fin 0 /\
  JS.Number " 12 " = JS.Fin 12 /\ JS.Number "-3" = JS.Fin (-3) /\
  JS.Number "ab" = JS.NaN /\ JS.Number "-" = JS.NaN /\
  JS.Number "1 2" = JS.NaN.
Proof. repeat split. Qed.

Example MakeDay_examples :
  JS.MakeDay 1970 0 1 = 0 /\ JS.MakeDay 2024 0 2 = 19724 /\
  JS.MakeDay 2024 2 1 = 19783 /\ JS.MakeDay 2023 12 2 = 19724 /\
  JS.MakeDay 2024 (-1) 31 = 19722 /\ JS.MakeDay 1969 11 31 = -1.
Proof. repeat split. Qed.

Example combineDateTime_examples :
  combineDateTime (host := utcHost) "1970-01-01" "00:00" = JS.Fin 0 /\
  combineDateTime (host := utcHost) "2024-01-02" "07:30" = JS.Fin 1704180600000 /\
  combineDateTime (host := utcHost) "2024-01-02" "" = JS.Fin 1704153600000 /\
  combineDateTime (host := utcHost) "2024" "07:30" = JS.Fin 1704094200000 /\
  combineDateTime (host := utcHost) "" "07:30" = JS.Fin (-2208961800000) /\
  combineDateTime (host := utcHost) "2024-" "00:00" = JS.Fin 1701388800000 /\
  combineDateTime (host := utcHost) "someday" "07:30" = JS.NaN /\
  combineDateTime (host := utcHost) "300000-01-01" "00:00" = JS.NaN.
Proof. vm_compute. repeat split. Qed.

Example normalizeTimeValue_examples :
  normalizeTimeValue "7:5" = "07:05"%string /\
  normalizeTimeValue "18:00" = "18:00"%string /\
  normalizeTimeValue "9" = "09:00"%string /\
  normalizeTimeValue "" = ""%string.
Proof. repeat split. Qed.

Example sortTasks_example :
  sortTasks (host := utcHost) [lunch; focus; finished; stretch; early] =
  [early; stretch; finished; focus; lunch].
Proof. vm_compute. reflexivity. Qed.

(** The tick that fires [stretch], and a second tick half a minute later. *)
Example tick_example :
  tick (host := utcHost) stretchTrigger planned = alerted /\
  tick (host := utcHost) (stretchTrigger + 30000) alerted = alerted.
Proof. vm_compute. split; reflexivity. Qed.

(** A reminder that fired and was not dismissed, then re-armed by a new
    time: the next tick marks the task notified again and the alert of the
    first firing stays the only one. *)
Example rearm_example :
  let edit := Updates.mk None None None (Some "07:05"%string) None None (Some false) in
  let rearmed := handleTaskUpdate (host := utcHost) "s" edit alerted in
  map Task.notified (tasks rearmed) = [false; false; false; true] /\
  map Task.notified (tasks (tick (host := utcHost) (stretchTrigger + 300000) rearmed))
    = [true; false; false; true] /\
  alerts (tick (host := utcHost) (stretchTrigger + 300000) rearmed) = alerts alerted.
Proof. vm_compute. repeat split. Qed.

(** * The theorems on the sample data *)


Lemma no_firing_before_trigger_witness :
  In stretch (tasks planned) /\
  Task.completed stretch = false /\
  Task.notified stretch = false /\
  combineDateTime (host := utcHost) "2024-01-02" "07:00" = JS.Fin 1704178800000 /\
  stretchTrigger - 1 < 1704178800000 - Task.remindBefore stretch * 60000 /\
  1704178800000 - Task.remindBefore stretch * 60000 <= stretchTrigger /\
  alertsFor "s" (alerts planned) = [] /\
  qualifies (host := utcHost) (stretchTrigger - 1) stretch = false /\
  In (Task.mk "s" "Call" "" "2024-01-02" "07:00" 10 false true)
    (tasks (tick (host := utcHost) stretchTrigger planned)) /\
  (exists added,
     alerts (tick (host := utcHost) stretchTrigger planned) = alerts planned ++ added /\
     exists item, alertsFor "s" added = [item] /\ Alert.taskId item = "s"%string).
Proof.
  assert (H1 : In stretch (tasks planned)) by (simpl; auto).
  assert (H2 : combineDateTime (host := utcHost) (Task.date stretch) (Task.time stretch)
               = JS.Fin 1704178800000) by (vm_compute; reflexivity).
  assert (H3 : stretchTrigger - 1 < 1704178800000 - Task.remindBefore stretch * 60000)
    by (vm_compute; reflexivity).
  assert (H4 : 1704178800000 - Task.remindBefore stretch * 60000 <= stretchTrigger)
    by (vm_compute; discriminate).
  assert (H5 : alertsFor (Task.id stretch) (alerts planned) = []) by reflexivity.
  pose proof (proj1 (no_firing_before_trigger (host := utcHost) (stretchTrigger - 1)
                       1704178800000 planned stretch H1 eq_refl eq_refl H2) H3) as Before.
  pose proof (proj2 (no_firing_before_trigger (host := utcHost) stretchTrigger
                       1704178800000 planned stretch H1 eq_refl eq_refl H2) H4) as At.
  destruct At as [_ [Marked [added [A [One _]]]]].
  refine (conj H1 (conj eq_refl (conj eq_refl (conj H2 (conj H3 (conj H4
            (conj H5 (conj (proj1 Before) (conj Marked _))))))))).
  exists added. exact (conj A (One H5)).
Defined.

Lemma completed_tasks_never_fire_witness :
  In finished (tasks planned) /\
  Task.completed finished = true /\
  JS.ge (JS.Fin 1704200000000) (triggerTime (host := utcHost) finished) = true /\
  In finished (tasks (tick (host := utcHost) 1704200000000 planned)) /\
  ~ In finished (filter (qualifies (host := utcHost) 1704200000000) (tasks planned)).
Proof.
  assert (H1 : In finished (tasks planned)) by (simpl; auto).
  assert (H2 : JS.ge (JS.Fin 1704200000000)
                 (triggerTime (host := utcHost) finished) = true)
    by (vm_compute; reflexivity).
  refine (conj H1 (conj eq_refl (conj H2 _))).
  exact (conj
    (proj1 (proj2 (completed_tasks_never_fire (host := utcHost) 1704200000000
                     planned finished H1 eq_refl)))
    (proj1 (proj2 (proj2 (completed_tasks_never_fire (host := utcHost) 1704200000000
                     planned finished H1 eq_refl))))).
Defined.

Lemma one_live_alert_per_task_witness :
  onePerTask (alerts alerted) = true /\
  alertsFor "s" (alerts alerted) <> [] /\
  triggerNotification (host := utcHost) stretch alerted = alerted /\
  onePerTask (alerts (acknowledgeAlert "0" alerted)) = true.
Proof.
  assert (H : onePerTask (alerts alerted) = true) by reflexivity.
  assert (L : alertsFor (Task.id stretch) (alerts alerted) <> [])
    by (simpl; discriminate).
  refine (conj H (conj L (conj _ _))).
  - exact (proj1 (proj2 (proj1 (one_live_alert_per_task (host := utcHost) alerted H)
                          stretch)) L).
  - exact (proj1 (proj2 (one_live_alert_per_task (host := utcHost) alerted H)) "0"%string).
Defined.

Lemma mutation_keeps_order_witness :
  ordered (host := utcHost) [lunch; early] = false /\
  forallb (validTask (host := utcHost))
    (tasks (mutate (host := utcHost) (Create walk) (mkStore [lunch; early] [] 0)))
    = true /\
  skipsSort (Create walk) = false /\
  ordered (host := utcHost)
    (tasks (mutate (host := utcHost) (Create walk) (mkStore [lunch; early] [] 0)))
    = true /\
  skipsSort (Remove "d") = true /\
  ordered (host := utcHost) (tasks planned) = true /\
  ordered (host := utcHost) (tasks (mutate (host := utcHost) (Remove "d") planned))
    = true.
Proof.
  assert (H0 : ordered (host := utcHost) [lunch; early] = false)
    by (vm_compute; reflexivity).
  assert (H1 : forallb (validTask (host := utcHost))
                 (tasks (mutate (host := utcHost) (Create walk)
                           (mkStore [lunch; early] [] 0))) = true)
    by (vm_compute; reflexivity).
  assert (H2 : skipsSort (Create walk) = true ->
               ordered (host := utcHost) (tasks (mkStore [lunch; early] [] 0)) = true)
    by (intros K; discriminate K).
  assert (H3 : forallb (validTask (host := utcHost))
                 (tasks (mutate (host := utcHost) (Remove "d") planned)) = true)
    by (vm_compute; reflexivity).
  assert (H4 : ordered (host := utcHost) (tasks planned) = true)
    by (vm_compute; reflexivity).
  refine (conj H0 (conj H1 (conj eq_refl (conj _ (conj eq_refl (conj H4 _)))))).
  - exact (proj1 (mutation_keeps_order (host := utcHost) (Create walk)
                    (mkStore [lunch; early] [] 0) H1 H2)).
  - exact (proj1 (mutation_keeps_order (host := utcHost) (Remove "d") planned H3
                    (fun _ => H4))).
Defined.

Lemma template_replace_is_destructive_witness :
  In lunch (tasks planned) /\
  Task.date lunch <> "2024-01-02"%string /\
  In lunch (replaceForDate (host := utcHost) "2024-01-02" [early] (tasks planned)).
Proof.
  assert (H1 : In lunch (tasks planned)) by (simpl; auto).
  assert (H2 : Task.date lunch <> "2024-01-02"%string) by discriminate.
  refine (conj H1 (conj H2 _)).
  exact (proj1 (proj2 (proj1 (template_replace_is_destructive (host := utcHost)
                                 "2024-01-02") [early] (tasks planned)))
           lunch H1 H2).
Defined.

Lemma combine_defaults_missing_parts_witness :
  lacks ":" "7" = true /\
  combineDateTime (host := utcHost) "2024" "7" =
  combineDateTime (host := utcHost) "2024" "7:00" /\
  lacks "-" "2024" = true /\
  combineDateTime (host := utcHost) "2024" "7" =
  combineDateTime (host := utcHost) "2024-1-1" "7" /\
  JS.Number (timePart 0 "ab:cd") = JS.NaN /\
  combineDateTime (host := utcHost) "2024-01-02" "ab:cd" = JS.NaN.
Proof.
  refine (conj eq_refl (conj _ (conj eq_refl (conj _ (conj eq_refl _))))).
  - exact (proj1 (proj2 (combine_defaults_missing_parts (host := utcHost) "2024" "7"))
             eq_refl).
  - exact (proj1 (proj2 (proj2 (proj2
             (combine_defaults_missing_parts (host := utcHost) "2024" "7"))))
             eq_refl).
  - exact (proj2 (proj2 (proj2 (proj2 (proj2
             (combine_defaults_missing_parts (host := utcHost) "2024-01-02" "ab:cd")))))
             (or_introl eq_refl)).
Defined.

Lemma unknown_id_is_noop_witness :
  ~ In "zz"%string (map Task.id (tasks planned)) /\
  ordered (host := utcHost) (tasks planned) = true /\
  handleTaskRemoval "zz" planned = planned /\
  handleTaskUpdate (host := utcHost) "zz" remindOnly planned = planned /\
  handleTaskCompletion (host := utcHost) "zz" true planned = planned /\
  Permutation
    (tasks (handleTaskUpdate (host := utcHost) "zz" remindOnly planned))
    (tasks planned).
Proof.
  assert (H1 : ordered (host := utcHost) (tasks planned) = true)
    by (vm_compute; reflexivity).
  assert (H2 : ~ In "zz"%string (map Task.id (tasks planned))).
  { simpl. intros [H|[H|[H|[H|[]]]]]; discriminate H. }
  pose proof (unknown_id_is_noop (host := utcHost) "zz" planned H2) as T.
  destruct T as [Removal [Update Completion]].
  destruct (Update remindOnly) as [_ [P [_ [_ U]]]].
  destruct (Completion true) as [_ [_ [_ [_ C]]]].
  exact (conj H2 (conj H1 (conj Removal (conj (U H1) (conj (C H1) P))))).
Defined.

Lemma update_without_schedule_keeps_notified_witness :
  Updates.date remindOnly = None /\
  Updates.time remindOnly = None /\
  Updates.notified remindOnly = Some false /\
  Task.notified lunch = true /\
  Task.notified (updateTask "l" remindOnly lunch) = Task.notified lunch.
Proof.
  refine (conj eq_refl (conj eq_refl (conj eq_refl (conj eq_refl _)))).
  exact (proj1 (update_without_schedule_keeps_notified (host := utcHost)
                  "l" remindOnly planned eq_refl eq_refl) lunch).
Defined.

(** * Where the code departs from the specification *)

(** C3. Clearing the time field of a task row sends the update
    [{ time: "", notified: false }].  The empty time is stored, but it is
    falsy, so the reminder is not re-armed: a task that was notified stays
    notified. *)
Theorem cleared_time_stays_notified :
  Updates.time clearedTime = Some ""%string /\
  Task.notified lunch = true /\
  tasks (handleTaskUpdate (host := utcHost) "l" clearedTime (mkStore [lunch] [] 0)) =
  [Task.mk "l" "Call" "" "2024-01-03" "" 10 false true].
Proof. repeat split. Qed.


(** C2 fails in the same way on the first tick at the trigger instant.  The
    reminder of [stretch] fires and is not dismissed; the task is then moved
    to the next day, which clears the notified flag.  With start instant
    [S] (3 January, 07:00) and a lead time of ten minutes, the tick one
    millisecond before [S - 600000] leaves the task alone, and the tick at
    [S - 600000], the first one at which the task is due, marks it notified
    and emits no alert. *)
Lemma live_alert_suppresses_firing :
  let edit :=
    Updates.mk None None (Some "2024-01-03"%string) None None None (Some false) in
  let s := runAll (host := utcHost)
             [Hydrate [stretch]; Tick stretchTrigger; Mutate (Update "s" edit)] in
  let task := sample "s" "2024-01-03" "07:00" 10 false in
  let S := 1704265200000 in
  tasks s = [task] /\
  Task.completed task = false /\
  Task.notified task = false /\
  combineDateTime (host := utcHost) (Task.date task) (Task.time task) = JS.Fin S /\
  Task.remindBefore task = 10 /\
  tick (host := utcHost) (S - 10 * 60000 - 1) s = s /\
  alerts (tick (host := utcHost) (S - 10 * 60000) s) = alerts s /\
  issued (tick (host := utcHost) (S - 10 * 60000) s) = issued s /\
  tasks (tick (host := utcHost) (S - 10 * 60000) s) = [markNotified task] /\
  ~ (exists added item,
       alerts (tick (host := utcHost) (S - 10 * 60000) s) = alerts s ++ added /\
       In item added).
Proof.
  vm_compute. repeat split; auto.
  intros [added [item [A Hin]]].
  destruct added as [|a added]; [destruct Hin|discriminate A].
Qed.

(** C6 fails when a task has an unreadable date: its start instant is NaN
    and the comparison function returns NaN against every other task.
    With [lunch] and [broken] alone the comparison function is consistent,
    the sort keeps them as they are, and the collection holds an instant
    that is in no order with the other.  With [lunch] (3 January), [broken]
    and [early] (1 January) the insertion sort compares neighbours only,
    both times with NaN, and never [lunch] with [early]: [lunch] stays
    ahead of [early] when the snapshot is loaded and after a task is
    created.  Removal does not sort: once [broken] is removed every task
    left is valid and the collection is still out of order, as is any
    collection that was out of order before a removal. *)
Lemma invalid_date_breaks_order :
  let two := runAll (host := utcHost) [Hydrate [lunch; broken]] in
  let s := runAll (host := utcHost) [Hydrate snapshot] in
  let s' := mutate (host := utcHost) (Create walk) s in
  startTime (host := utcHost) lunch = JS.Fin 1704285000000 /\
  startTime (host := utcHost) broken = JS.NaN /\
  startTime (host := utcHost) early = JS.Fin 1704099600000 /\
  map Task.id (tasks (mutate (host := utcHost) (SetCompleted "l" true) two)) =
    ["l"; "x"]%string /\
  ordered (host := utcHost)
    (tasks (mutate (host := utcHost) (SetCompleted "l" true) two)) = false /\
  map Task.id (tasks s') = ["l"; "x"; "e"; "0"]%string /\
  ordered (host := utcHost) (tasks s') = false /\
  tasks (mutate (host := utcHost) (Remove "x") s) = [lunch; early] /\
  forallb (validTask (host := utcHost)) [lunch; early] = true /\
  ordered (host := utcHost) [lunch; early] = false /\
  ordered (host := utcHost)
    (tasks (mutate (host := utcHost) (Remove "zz") (mkStore [focus; stretch] [] 0)))
  = false.
Proof. vm_compute. repeat split. Qed.

(** C8 fails on a time whose parts are not numbers: no default is taken and
    the result is the invalid date, not midnight. *)
Lemma nonnumeric_time_is_not_defaulted :
  combineDateTime (host := utcHost) "2024-01-02" "ab:cd" = JS.NaN /\
  combineDateTime (host := utcHost) "2024-01-02" "00:00" = JS.Fin 1704153600000 /\
  combineDateTime (host := utcHost) "2024-01-02" "ab:cd" <>
  combineDateTime (host := utcHost) "2024-01-02" "00:00".
Proof. vm_compute. repeat split. discriminate. Qed.

(** C9 fails on a collection that is not in order: [handleTaskUpdate] and
    [handleTaskCompletion] sort it again even when no task carries the
    identifier.  The store holds such a collection after it has loaded a
    snapshot with an unreadable date and removed the task that carries
    it. *)
Lemma unknown_id_reorders :
  let unordered := mkStore [focus; stretch] [] 0 in
  let s := runAll (host := utcHost) [Hydrate snapshot; Mutate (Remove "x")] in
  ~ In "zz"%string (map Task.id (tasks unordered)) /\
  tasks (handleTaskUpdate (host := utcHost) "zz" Updates.none unordered) =
    [stretch; focus] /\
  handleTaskUpdate (host := utcHost) "zz" Updates.none unordered <> unordered /\
  handleTaskCompletion (host := utcHost) "zz" true unordered <> unordered /\
  map Task.id (tasks s) = ["l"; "e"]%string /\
  ~ In "zz"%string (map Task.id (tasks s)) /\
  map Task.id (tasks (handleTaskUpdate (host := utcHost) "zz" Updates.none s)) =
    ["e"; "l"]%string /\
  handleTaskUpdate (host := utcHost) "zz" Updates.none s <> s /\
  handleTaskCompletion (host := utcHost) "zz" true s <> s.
Proof.
  vm_compute. repeat split; try discriminate.
  - intros [H|[H|[]]]; discriminate H.
  - intros [H|[H|[]]]; discriminate H.
Qed.

(** * Further properties of the engine *)

Section TickProperties.
Context {host : Host}.

Lemma tickTask_settled (nowTime : Z) (task : Task.t) :
  qualifies nowTime (tickTask nowTime task) = false.
Proof.
  unfold tickTask. destruct (qualifies nowTime task) eqn:Q; [|exact Q].
  apply qualifies_marked.
Qed.

Lemma tick_unfold (nowTime : Z) (s : Store) :
  tick nowTime s =
  let s' := notifyAll (filter (qualifies nowTime) (tasks s)) s in
  mkStore
    (if existsb (qualifies nowTime) (tasks s)
     then sortTasks (map (tickTask nowTime) (tasks s)) else tasks s)
    (alerts s') (issued s').
Proof.
  unfold tick. rewrite tickMap_spec. unfold setTasks.
  rewrite notifyAll_tasks. reflexivity.
Qed.

Lemma filter_none {A : Type} (p : A -> bool) (l : list A) :
  (forall x, In x l -> p x = false) -> filter p l = [] /\ existsb p l = false.
Proof.
  induction l as [|x l IH]; intros H; [now split|]. simpl.
  rewrite (H x (or_introl eq_refl)). simpl. apply IH. intros y Hy. apply H. now right.
Qed.

Lemma tick_idle (nowTime : Z) (s : Store) :
  (forall task, In task (tasks s) -> qualifies nowTime task = false) ->
  tick nowTime s = s.
Proof.
  intros H. rewrite tick_unfold.
  destruct (filter_none _ _ H) as [E1 E2]. rewrite E1, E2. simpl.
  apply store_eta.
Qed.

(** X1. A tick at which no task qualifies returns the store as it is: the
    collection is not sorted again, no alert is added and no identifier is
    used. *)
Theorem idle_tick_changes_nothing (nowTime : Z) (s : Store) :
  (forall task, In task (tasks s) -> qualifies nowTime task = false) ->
  tick nowTime s = s.
Proof. apply tick_idle. Qed.

(** X2. One tick settles everything that is due: after a tick at [nowTime]
    no task of the collection qualifies at [nowTime], whenever its trigger
    time lies, and a second tick at the same time changes nothing. *)
Theorem tick_settles_all_due (nowTime : Z) (s : Store) :
  (forall task, In task (tasks (tick nowTime s)) -> qualifies nowTime task = false) /\
  tick nowTime (tick nowTime s) = tick nowTime s.
Proof.
  assert (H : forall task, In task (tasks (tick nowTime s)) ->
                           qualifies nowTime task = false).
  { intros task Hin. rewrite tick_tasks in Hin.
    destruct (existsb (qualifies nowTime) (tasks s)) eqn:E.
    - apply (Permutation_in _ (sortTasks_perm _)) in Hin.
      apply in_map_iff in Hin as [t [<- _]]. apply tickTask_settled.
    - destruct (qualifies nowTime task) eqn:Q; [|reflexivity].
      assert (existsb (qualifies nowTime) (tasks s) = true)
        by (apply existsb_exists; eauto).
      congruence. }
  split; [exact H|]. now apply tick_idle.
Qed.

Lemma notifyAll_grows (fired : list Task.t) (s : Store) :
  exists added,
    alerts (notifyAll fired s) = alerts s ++ added /\
    issued (notifyAll fired s) = (issued s + List.length added)%nat /\
    (List.length added <= List.length fired)%nat /\
    (forall item, In item added -> exists t, In t fired /\ Alert.taskId item = Task.id t).
Proof.
  revert s. induction fired as [|t fired IH]; intros s.
  - exists []. simpl. rewrite app_nil_r. repeat split; auto. intros item [].
  - simpl. destruct (IH (triggerNotification t s)) as [added [A [I [L O]]]].
    rewrite A, I. unfold triggerNotification.
    destruct (existsb _ (alerts s)).
    + exists added. repeat split; auto.
      intros item Hi. destruct (O item Hi) as [t' [Ht Hid]]. eauto.
    + exists (newAlert t (issued s) :: added). simpl.
      rewrite <- app_assoc. simpl. repeat split; try lia.
      intros item [<-|Hi]; [exists t; auto|].
      destruct (O item Hi) as [t' [Ht Hid]]. eauto.
Qed.

(** X3. A tick keeps every task: the collection after it is a rearrangement
    of the tasks before, each returned by the callback, which changes
    nothing but the notified flag and never clears it or the completed
    flag. *)
Theorem tick_keeps_every_task (nowTime : Z) (s : Store) :
  Permutation (tasks (tick nowTime s)) (map (tickTask nowTime) (tasks s)) /\
  List.length (tasks (tick nowTime s)) = List.length (tasks s) /\
  forall task,
    Task.id (tickTask nowTime task) = Task.id task /\
    Task.title (tickTask nowTime task) = Task.title task /\
    Task.description (tickTask nowTime task) = Task.description task /\
    Task.date (tickTask nowTime task) = Task.date task /\
    Task.time (tickTask nowTime task) = Task.time task /\
    Task.remindBefore (tickTask nowTime task) = Task.remindBefore task /\
    Task.completed (tickTask nowTime task) = Task.completed task /\
    (Task.notified task = true -> tickTask nowTime task = task) /\
    (Task.notified (tickTask nowTime task) = false -> tickTask nowTime task = task).
Proof.
  assert (P : Permutation (tasks (tick nowTime s)) (map (tickTask nowTime) (tasks s))).
  { rewrite tick_tasks.
    destruct (existsb (qualifies nowTime) (tasks s)) eqn:E; [apply sortTasks_perm|].
    assert (M : map (tickTask nowTime) (tasks s) = tasks s).
    { rewrite <- (map_id (tasks s)) at 2. apply map_ext_in. intros t Ht.
      unfold tickTask. destruct (qualifies nowTime t) eqn:Q; [|reflexivity].
      assert (existsb (qualifies nowTime) (tasks s) = true)
        by (apply existsb_exists; eauto).
      congruence. }
    now rewrite M. }
  split; [exact P|]. split.
  - rewrite (Permutation_length P). apply length_map.
  - intros task. unfold tickTask, qualifies, markNotified.
    destruct (JS.ge (JS.Fin nowTime) (triggerTime task)).
    all: destruct task as [i ti de da tm rb [|] [|]]; simpl.
    all: repeat split; auto; discriminate.
Qed.

(** X4. A tick only appends to the alert list: the alerts that were live
    stay in place, at most one is added per qualifying task, each added
    alert refers to a qualifying task, and one identifier is used per added
    alert. *)
Theorem tick_appends_alerts (nowTime : Z) (s : Store) :
  exists added,
    alerts (tick nowTime s) = alerts s ++ added /\
    issued (tick nowTime s) = (issued s + List.length added)%nat /\
    (List.length added <= List.length (filter (qualifies nowTime) (tasks s)))%nat /\
    (forall item, In item added ->
       exists task, In task (tasks s) /\ qualifies nowTime task = true /\
                    Alert.taskId item = Task.id task).
Proof.
  destruct (notifyAll_grows (filter (qualifies nowTime) (tasks s)) s)
    as [added [A [I [L O]]]].
  exists added. rewrite tick_unfold. cbn [alerts issued].
  repeat split; auto.
  intros item Hi. destruct (O item Hi) as [t [Ht Hid]].
  apply filter_In in Ht as [Ht Q]. eauto.
Qed.

End TickProperties.

(** * The summary of the selected day *)

Section SummaryProperties.
Context {host : Host}.

Lemma sort_nil_iff {A : Type} (comparefn : A -> A -> JS.num) (l : list A) :
  JS.sort comparefn l = [] <-> l = [].
Proof.
  split; [|now intros ->].
  intros H. pose proof (Permutation_length (sort_perm comparefn l)) as L.
  rewrite H in L. destruct l; [reflexivity|discriminate].
Qed.

Lemma filter_nil_iff {A : Type} (p : A -> bool) (l : list A) :
  filter p l = [] <-> forallb (fun x => negb (p x)) l = true.
Proof.
  induction l as [|x l IH]; simpl; [now split|].
  destruct (p x); simpl; [split; discriminate|exact IH].
Qed.

Lemma ordered_head (x : Task.t) (l : list Task.t) :
  ordered (x :: l) = true ->
  forall y, In y (x :: l) -> validTask x = true -> notAfter x y = true.
Proof.
  cbn [ordered]. intros H y [<-|Hy] Hx.
  - unfold notAfter, validTask in *. destruct (startTime x); [discriminate|].
    simpl. apply Z.leb_refl.
  - apply andb_prop in H as [H _]. now apply (proj1 (forallb_forall _ _) H).
Qed.

Lemma filter_split_length {A : Type} (p : A -> bool) (l : list A) :
  List.length l =
  (List.length (filter p l) + List.length (filter (fun x => negb (p x)) l))%nat.
Proof.
  induction l as [|x l IH]; [reflexivity|]. simpl.
  destruct (p x); simpl; lia.
Qed.

Lemma forallb_negb_negb {A : Type} (p : A -> bool) (l : list A) :
  forallb (fun x => negb (negb (p x))) l = forallb p l.
Proof.
  induction l as [|x l IH]; [reflexivity|]. simpl.
  now rewrite negb_involutive, IH.
Qed.

Lemma soonest_none (l : list Task.t) :
  getSoonestTask l = None <-> forallb Task.completed l = true.
Proof.
  unfold getSoonestTask.
  destruct (JS.sort compareTasks _) as [|t rest] eqn:E; simpl.
  - apply sort_nil_iff in E. apply filter_nil_iff in E.
    rewrite forallb_negb_negb in E. now split.
  - split; [discriminate|]. intros H. exfalso.
    assert (Hin : In t (JS.sort compareTasks
                          (filter (fun task => negb (Task.completed task)) l)))
      by (rewrite E; now left).
    apply (Permutation_in _ (sort_perm _ _)) in Hin.
    apply filter_In in Hin as [Hin Hc].
    rewrite (proj1 (forallb_forall _ _) H t Hin) in Hc. discriminate.
Qed.

Lemma soonest_some (l : list Task.t) (task : Task.t) :
  getSoonestTask l = Some task -> In task l /\ Task.completed task = false.
Proof.
  unfold getSoonestTask. intros H.
  destruct (JS.sort compareTasks _) as [|t rest] eqn:E; [discriminate|].
  injection H as ->.
  assert (Hin : In task (JS.sort compareTasks
                           (filter (fun task => negb (Task.completed task)) l)))
    by (rewrite E; now left).
  apply (Permutation_in _ (sort_perm _ _)) in Hin.
  apply filter_In in Hin as [Hin Hc]. split; [assumption|].
  now apply negb_true_iff.
Qed.

(** X5. [getSoonestTask] returns null exactly when every task of the list
    is completed (in particular on the empty list); otherwise it returns a
    task of the list that is not completed. *)
Theorem soonest_task_exists_iff_pending (l : list Task.t) :
  (getSoonestTask l = None <-> forallb Task.completed l = true) /\
  (forall task, getSoonestTask l = Some task ->
     In task l /\ Task.completed task = false).
Proof. split; [apply soonest_none|apply soonest_some]. Qed.

(** X6. When the tasks that are not completed all have a valid start
    instant, the task [getSoonestTask] returns starts no later than any of
    them, and among those that start at the same instant it is the one that
    comes first in the list. *)
Theorem soonest_task_is_earliest (l : list Task.t) (task : Task.t) :
  forallb validTask (filter (fun t => negb (Task.completed t)) l) = true ->
  getSoonestTask l = Some task ->
  (forall other, In other l -> Task.completed other = false ->
     notAfter task other = true) /\
  exists v, startTime task = JS.Fin v /\
    nth_error (filter (startsAt v) (filter (fun t => negb (Task.completed t)) l)) 0
    = Some task.
Proof.
  intros Hv H. unfold getSoonestTask in H.
  set (pending := filter (fun t => negb (Task.completed t)) l) in *.
  fold (sortTasks pending) in H.
  destruct (sortTasks pending) as [|t rest] eqn:E; [discriminate|].
  injection H as ->.
  assert (Ho : ordered (task :: rest) = true)
    by (rewrite <- E; now apply sortTasks_ordered).
  assert (Hin : In task pending).
  { apply (Permutation_in _ (sortTasks_perm pending)). rewrite E. now left. }
  assert (Hvt : validTask task = true)
    by (apply (proj1 (forallb_forall _ _) Hv); assumption).
  split.
  - intros other Ho1 Ho2. apply (ordered_head task rest Ho); [|assumption].
    rewrite <- E. apply (Permutation_in _ (Permutation_sym (sortTasks_perm pending))).
    apply filter_In. split; [assumption|]. now rewrite Ho2.
  - unfold validTask in Hvt. destruct (startTime task) as [|v] eqn:Es; [discriminate|].
    exists v. split; [reflexivity|].
    rewrite <- (sortTasks_stable v pending), E. simpl.
    unfold startsAt at 1. rewrite Es. simpl. now rewrite Z.eqb_refl.
Qed.

(** X7. In the summary of a day the completed and pending counts add up to
    the total, the pending count is the number of tasks of the day that are
    not completed, and the next task is null exactly when nothing is
    pending; when there is one, it is a task of that day that is not
    completed. *)
Theorem stats_are_consistent (l : list Task.t) (selectedDate : string) :
  let day := selectedDayTasks l selectedDate in
  let summary := stats day in
  Stats.total summary = Stats.completed summary + Stats.pending summary /\
  Stats.pending summary =
    Z.of_nat (List.length (filter (fun t => negb (Task.completed t)) day)) /\
  (Stats.nextTask summary = None <-> Stats.pending summary = 0) /\
  (forall task, Stats.nextTask summary = Some task ->
     In task l /\ Task.date task = selectedDate /\ Task.completed task = false).
Proof.
  intros day summary. unfold summary, stats. cbn [Stats.total Stats.completed
    Stats.pending Stats.nextTask].
  pose proof (filter_split_length Task.completed day) as L.
  split; [lia|]. split; [lia|]. split.
  - rewrite soonest_none.
    split; intros H.
    + assert (E : filter (fun t => negb (Task.completed t)) day = []).
      { apply filter_nil_iff. now rewrite forallb_negb_negb. }
      rewrite E in L. simpl in L. lia.
    + assert (E : filter (fun t => negb (Task.completed t)) day = []).
      { destruct (filter (fun t => negb (Task.completed t)) day); [reflexivity|].
        simpl in L. lia. }
      apply filter_nil_iff in E. now rewrite forallb_negb_negb in E.
  - intros task H.
    destruct (soonest_some day task H) as [Hin Hc].
    apply filter_In in Hin as [Hin Hd]. apply String.eqb_eq in Hd. auto.
Qed.

End SummaryProperties.

(** * The list of dates *)

Section DateListProperties.

Lemma compare_as_OT (a b : string) :
  String.compare a b = OrdersEx.String_as_OT.compare a b.
Proof.
  revert b. induction a as [|c a IH]; intros [|d b]; reflexivity.
Qed.

Lemma ltb_trans (a b c : string) :
  String.ltb a b = true -> String.ltb b c = true -> String.ltb a c = true.
Proof.
  unfold String.ltb. intros H1 H2.
  destruct (String.compare a b) eqn:E1; try discriminate H1.
  destruct (String.compare b c) eqn:E2; try discriminate H2.
  rewrite compare_as_OT in E1, E2.
  pose proof (@RelationClasses.StrictOrder_Transitive _ _
                OrdersEx.String_as_OT.lt_strorder a b c E1 E2) as H.
  unfold OrdersEx.String_as_OT.lt in H. rewrite <- compare_as_OT in H.
  now rewrite H.
Qed.

Lemma ltb_irrefl (a : string) : String.ltb a a = false.
Proof.
  unfold String.ltb. destruct (String.compare a a) eqn:E; try reflexivity.
  pose proof (String.compare_antisym a a) as H. rewrite E in H. discriminate H.
Qed.

(** Of two different strings one is below the other. *)
Lemma ltb_connected (a b : string) :
  a <> b -> String.ltb b a = false -> String.ltb a b = true.
Proof.
  unfold String.ltb. rewrite (String.compare_antisym b a).
  destruct (String.compare a b) eqn:E; simpl; intros H1 H2;
    try reflexivity; try discriminate.
  apply String.compare_eq_iff in E. contradiction.
Qed.

Lemma SortCompare_dates (a b : string) :
  (JS.SortCompare compareDates a b <=? 0) = negb (String.ltb b a).
Proof.
  unfold JS.SortCompare, compareDates. now destruct (String.ltb b a).
Qed.

Lemma insert_ascending (x : string) (l : list string) :
  ~ In x l ->
  StronglySorted (fun a b => String.ltb a b = true) l ->
  StronglySorted (fun a b => String.ltb a b = true) (JS.insert compareDates x l).
Proof.
  intros Hx Hs. induction Hs as [|y l Hs IH Hy]; simpl.
  - constructor; constructor.
  - rewrite SortCompare_dates.
    assert (Hxy : x <> y) by (intros ->; apply Hx; now left).
    assert (Hxl : ~ In x l) by (intros H; apply Hx; now right).
    destruct (String.ltb y x) eqn:E; simpl.
    + constructor; [now apply IH|].
      apply (Permutation_Forall (Permutation_sym (insert_perm compareDates x l))).
      now constructor.
    + pose proof (ltb_connected x y Hxy E) as Lxy.
      constructor; [now constructor|]. constructor; [assumption|].
      apply Forall_forall. intros z Hz.
      apply (ltb_trans x y z); [assumption|].
      now apply (proj1 (Forall_forall _ _) Hy).
Qed.

Lemma sort_ascending (l : list string) :
  NoDup l ->
  StronglySorted (fun a b => String.ltb a b = true) (JS.sort compareDates l).
Proof.
  induction 1 as [|x l Hx Hn IH]; simpl; [constructor|].
  apply insert_ascending; [|assumption].
  intros H. apply Hx. now apply (Permutation_in _ (sort_perm compareDates l)).
Qed.

Lemma setAdd_spec (set : list string) (value : string) :
  NoDup set ->
  NoDup (setAdd set value) /\
  forall x, In x (setAdd set value) <-> In x set \/ x = value.
Proof.
  intros Hn. unfold setAdd.
  destruct (existsb (String.eqb value) set) eqn:E.
  - split; [assumption|]. intros x. split; [now left|].
    intros [H| ->]; [assumption|].
    apply existsb_exists in E as [y [Hy Hv]]. apply String.eqb_eq in Hv. now subst.
  - split.
    + apply NoDup_app; [assumption|repeat constructor; intros []|].
      intros y Hy [<-|[]].
      assert (existsb (String.eqb value) set = true).
      { apply existsb_exists. exists value. split; [assumption|apply String.eqb_refl]. }
      congruence.
    + intros x. rewrite in_app_iff. simpl. intuition.
Qed.

Lemma fold_setAdd_spec (values set : list string) :
  NoDup set ->
  NoDup (fold_left setAdd values set) /\
  forall x, In x (fold_left setAdd values set) <-> In x set \/ In x values.
Proof.
  revert set. induction values as [|v values IH]; intros set Hn; simpl.
  - split; [assumption|]. intuition.
  - destruct (setAdd_spec set v Hn) as [Hn' Hin].
    destruct (IH _ Hn') as [N I]. split; [assumption|].
    intros x. rewrite I, Hin. intuition.
Qed.

(** X8. The list of dates holds each date of the collection once, and no
    other string, in ascending order of the strings (character by
    character, as [>] compares them). *)
Theorem allDates_distinct_ascending (l : list Task.t) :
  (forall date, In date (allDates l) <-> exists task, In task l /\ Task.date task = date) /\
  NoDup (allDates l) /\
  StronglySorted (fun a b => String.ltb a b = true) (allDates l).
Proof.
  unfold allDates, newSet.
  destruct (fold_setAdd_spec (map Task.date l) [] (NoDup_nil _)) as [N I].
  pose proof (sort_perm compareDates (fold_left setAdd (map Task.date l) [])) as P.
  split; [|split].
  - intros date. split.
    + intros H. apply (Permutation_in _ P) in H. apply I in H as [[]|H].
      apply in_map_iff in H as [t [E Ht]]. eauto.
    + intros [t [Ht E]]. apply (Permutation_in _ (Permutation_sym P)).
      apply I. right. apply in_map_iff. eauto.
  - apply (Permutation_NoDup (Permutation_sym P)). assumption.
  - now apply sort_ascending.
Qed.

End DateListProperties.

(** * Normalised times *)

Section TimeTextProperties.
Context {host : Host}.

Lemma split_parts_lack (sep : ascii) (s : string) :
  Forall (fun part => lacks sep part = true) (JS.split sep s).
Proof.
  induction s as [|c s IH]; simpl; [repeat constructor|].
  destruct (Ascii.eqb c sep) eqn:E; [constructor; [reflexivity|assumption]|].
  destruct (JS.split sep s) as [|hd tl]; [repeat constructor; simpl; now rewrite E|].
  inversion IH; subst. constructor; [|assumption]. simpl. now rewrite E.
Qed.

Lemma timePart_lacks (i : nat) (s : string) : lacks ":" (timePart i s) = true.
Proof.
  unfold timePart. pose proof (split_parts_lack ":" s) as F.
  revert i. induction F as [|p l Hp F IH]; intros [|i]; simpl; auto.
Qed.

Lemma padStart2_lacks (s : string) :
  lacks ":" s = true -> lacks ":" (JS.padStart2 s) = true.
Proof. destruct s as [|c [|d s]]; simpl; auto. Qed.

Lemma padStart2_length (s : string) : (2 <= String.length (JS.padStart2 s))%nat.
Proof. destruct s as [|c [|d s]]; simpl; lia. Qed.

Lemma padStart2_fixed (s : string) :
  (2 <= String.length s)%nat -> JS.padStart2 s = s.
Proof. destruct s as [|c [|d s]]; simpl; try lia; reflexivity. Qed.

Lemma normalizeTimeValue_parts (value : string) :
  JS.truthy value = true ->
  normalizeTimeValue value =
  (JS.padStart2 (timePart 0 value) ++ String ":" (JS.padStart2 (timePart 1 value)))%string.
Proof. unfold normalizeTimeValue. now intros ->. Qed.

Lemma split_two (h m : string) :
  lacks ":" h = true -> lacks ":" m = true ->
  JS.split ":" (h ++ String ":" m) = [h; m].
Proof. intros Hh Hm. now rewrite split_app, !split_lacks. Qed.

Lemma truthy_app (h m : string) : JS.truthy (h ++ String ":" m) = true.
Proof. now destruct h. Qed.

(** X9. Normalising is idempotent, and the normalised text of a non-empty
    value always has the shape [h:m], both parts free of colons and at
    least two characters long; the empty value stays empty. *)
Theorem normalizeTimeValue_idempotent (value : string) :
  normalizeTimeValue (normalizeTimeValue value) = normalizeTimeValue value /\
  (JS.truthy value = false -> normalizeTimeValue value = ""%string) /\
  (JS.truthy value = true ->
   exists h m,
     normalizeTimeValue value = (h ++ ":" ++ m)%string /\
     JS.split ":" (normalizeTimeValue value) = [h; m] /\
     (2 <= String.length h)%nat /\ (2 <= String.length m)%nat).
Proof.
  destruct (JS.truthy value) eqn:T.
  - pose proof (normalizeTimeValue_parts value T) as E.
    set (h := JS.padStart2 (timePart 0 value)) in *.
    set (m := JS.padStart2 (timePart 1 value)) in *.
    assert (Hh : lacks ":" h = true) by apply padStart2_lacks, timePart_lacks.
    assert (Hm : lacks ":" m = true) by apply padStart2_lacks, timePart_lacks.
    assert (S : JS.split ":" (normalizeTimeValue value) = [h; m])
      by (rewrite E; now apply split_two).
    split; [|split; [discriminate|]].
    + rewrite (normalizeTimeValue_parts (normalizeTimeValue value))
        by (rewrite E; apply truthy_app).
      unfold timePart. rewrite S. simpl.
      rewrite !padStart2_fixed by apply padStart2_length. exact (eq_sym E).
    + intros _. exists h, m. repeat split; try apply padStart2_length; assumption.
  - assert (E : normalizeTimeValue value = ""%string)
      by (unfold normalizeTimeValue; now rewrite T).
    rewrite E. split; [reflexivity|]. split; [reflexivity|discriminate].
Qed.

Lemma Number_one_digit (c : ascii) :
  JS.digit_val c <> None ->
  JS.Number (String "0" (String c "")) = JS.Number (String c "").
Proof.
  destruct c as [[|] [|] [|] [|] [|] [|] [|] [|]];
    intros H; try (exfalso; apply H; reflexivity); reflexivity.
Qed.

Lemma Number_padStart2 (part : string) :
  allDigits part = true -> JS.Number (JS.padStart2 part) = JS.Number part.
Proof.
  destruct part as [|c [|d rest]]; [reflexivity| |reflexivity].
  simpl. intros H. apply Number_one_digit.
  now destruct (JS.digit_val c).
Qed.

(** X10. When the hour and minute parts of a time are written in digits,
    normalising the time does not change the instant it denotes on any
    date. *)
Theorem normalizeTimeValue_keeps_instant (value date : string) :
  allDigits (timePart 0 value) = true ->
  allDigits (timePart 1 value) = true ->
  combineDateTime date (normalizeTimeValue value) = combineDateTime date value.
Proof.
  intros H0 H1. destruct (JS.truthy value) eqn:T.
  - rewrite (normalizeTimeValue_parts value T). unfold combineDateTime.
    rewrite split_two by apply padStart2_lacks, timePart_lacks.
    cbn [nth]. fold (timePart 0 value). fold (timePart 1 value).
    now rewrite !Number_padStart2.
  - unfold normalizeTimeValue. rewrite T. simpl.
    destruct value; [reflexivity|discriminate].
Qed.

End TimeTextProperties.

(** * Operations of the task store *)

Section OperationProperties.
Context {host : Host}.

Lemma ordered_map (g : Task.t -> Task.t) (l : list Task.t) :
  (forall task, startTime (g task) = startTime task) ->
  ordered (map g l) = ordered l.
Proof.
  intros Hg. induction l as [|x l IH]; [reflexivity|]. simpl. rewrite IH. f_equal.
  clear IH. induction l as [|y l IH]; [reflexivity|]. simpl. rewrite IH. f_equal.
  unfold notAfter. now rewrite !Hg.
Qed.

Lemma sorted_map_in_place (g : Task.t -> Task.t) (l : list Task.t) :
  (forall task, startTime (g task) = startTime task) ->
  ordered l = true -> sortTasks (map g l) = map g l.
Proof.
  intros Hg Ho. apply sortTasks_fixed. now rewrite ordered_map.
Qed.

Lemma startTime_setCompleted (taskId : string) (c : bool) (task : Task.t) :
  startTime (setCompleted taskId c task) = startTime task.
Proof. unfold setCompleted. now destruct (String.eqb (Task.id task) taskId). Qed.

Lemma startTime_updateTask (taskId : string) (updates : Updates.t) (task : Task.t) :
  Updates.date updates = None -> Updates.time updates = None ->
  startTime (updateTask taskId updates task) = startTime task.
Proof.
  intros Hd Ht. unfold updateTask, applyUpdates, startTime.
  destruct (String.eqb (Task.id task) taskId); [|reflexivity].
  simpl. now rewrite Hd, Ht.
Qed.

Lemma truthy_normalizeTimeValue (value : string) :
  JS.truthy (normalizeTimeValue value) = JS.truthy value.
Proof.
  destruct (JS.truthy value) eqn:T.
  - rewrite (normalizeTimeValue_parts value T). apply truthy_app.
  - unfold normalizeTimeValue. now rewrite T.
Qed.

(** X11. Editing the time field of a task row stores the normalised time
    in the tasks that carry the identifier and re-arms them when the field
    holds a value; when the field was cleared the time becomes empty and the
    notified flag stays as it was.  No other field and no other task is
    changed. *)
Theorem time_field_rearms_unless_cleared (taskId value : string) (s : Store) :
  let edit := updateTask taskId
                (Updates.mk None None None (Some (normalizeTimeValue value))
                   None None (Some false)) in
  Permutation (tasks (changeTime taskId value s)) (map edit (tasks s)) /\
  alerts (changeTime taskId value s) = alerts s /\
  forall task,
    (Task.id task <> taskId -> edit task = task) /\
    (Task.id task = taskId ->
       edit task =
       Task.mk (Task.id task) (Task.title task) (Task.description task)
         (Task.date task) (normalizeTimeValue value) (Task.remindBefore task)
         (Task.completed task)
         (if JS.truthy value then false else Task.notified task)).
Proof.
  intros edit. split; [apply sortTasks_perm|]. split; [reflexivity|].
  intros task. unfold edit, updateTask, applyUpdates. split; intros H.
  - apply String.eqb_neq in H. now rewrite H.
  - apply String.eqb_eq in H. rewrite H. cbn [Updates.title Updates.description
      Updates.date Updates.time Updates.remindBefore Updates.completed JS.nullish
      JS.truthy_opt].
    now rewrite truthy_normalizeTimeValue, orb_false_r.
Qed.

Lemma truthy_nonempty (text : string) :
  text <> ""%string -> JS.truthy text = true.
Proof. destruct text; [contradiction|reflexivity]. Qed.

Lemma complete_form (formState : Form.t) :
  Form.title formState <> ""%string -> Form.date formState <> ""%string ->
  Form.time formState <> ""%string -> incomplete formState = false.
Proof.
  intros Ht Hd Hm. unfold incomplete.
  now rewrite !truthy_nonempty.
Qed.

(** X12. [handleFormSubmit] does nothing when the title, the date or the
    time is empty, and no identifier is used.  Otherwise it adds exactly one
    task, pending and with the next identifier, a trimmed title and
    description and the normalised time; the alerts are untouched. *)
Theorem form_submit_adds_one_pending_task (formState : Form.t) (s : Store) :
  (Form.title formState = ""%string \/ Form.date formState = ""%string \/
   Form.time formState = ""%string ->
   handleFormSubmit formState s = s) /\
  (Form.title formState <> ""%string -> Form.date formState <> ""%string ->
   Form.time formState <> ""%string ->
   Permutation (tasks (handleFormSubmit formState s))
     (Task.mk (createId (issued s)) (JS.trim (Form.title formState))
        (JS.trim (Form.description formState)) (Form.date formState)
        (normalizeTimeValue (Form.time formState)) (Form.remindBefore formState)
        false false
      :: tasks s) /\
   List.length (tasks (handleFormSubmit formState s)) = S (List.length (tasks s)) /\
   alerts (handleFormSubmit formState s) = alerts s /\
   issued (handleFormSubmit formState s) = S (issued s)).
Proof.
  unfold handleFormSubmit. split.
  - unfold incomplete.
    intros [H|[H|H]]; rewrite H; simpl; rewrite ?orb_true_r; reflexivity.
  - intros Ht Hd Hm. rewrite (complete_form formState Ht Hd Hm).
    cbn [tasks alerts issued].
    assert (P : Permutation (sortTasks (tasks s ++ [newTask formState (issued s)]))
                  (newTask formState (issued s) :: tasks s)).
    { rewrite sortTasks_perm. apply Permutation_sym, Permutation_cons_append. }
    split; [exact P|]. split; [|split; reflexivity].
    now rewrite (Permutation_length P).
Qed.

Lemma trim_start_spaces (text : string) :
  allSpaces text = true -> JS.trim_start text = ""%string.
Proof.
  induction text as [|c text IH]; [reflexivity|]. simpl.
  intros H. apply andb_prop in H as [Hc Ht]. rewrite Hc. now apply IH.
Qed.

(** X13. A title of white space only passes the guard of
    [handleFormSubmit]: with a date and a time the form is accepted and the
    task is stored with the empty title. *)
Theorem blank_title_is_accepted (formState : Form.t) (s : Store) :
  Form.title formState <> ""%string ->
  allSpaces (Form.title formState) = true ->
  Form.date formState <> ""%string ->
  Form.time formState <> ""%string ->
  exists task,
    In task (tasks (handleFormSubmit formState s)) /\
    Task.id task = createId (issued s) /\
    Task.title task = ""%string.
Proof.
  intros Ht Hs Hd Hm. exists (newTask formState (issued s)).
  split; [|split].
  - unfold handleFormSubmit. rewrite (complete_form formState Ht Hd Hm).
    cbn [tasks].
    apply (Permutation_in _ (Permutation_sym (sortTasks_perm _))).
    apply in_or_app. right. now left.
  - reflexivity.
  - unfold newTask. cbn [Task.title]. unfold JS.trim.
    now rewrite trim_start_spaces.
Qed.

(** X14. On a collection in ascending order a completion change is made in
    place: no task moves, only the completed flag of the tasks that carry
    the identifier changes, and the alerts are untouched.  The last change
    wins, and setting the flag these tasks already have changes nothing. *)
Theorem completion_changes_in_place (taskId : string) (completed : bool) (s : Store) :
  ordered (tasks s) = true ->
  tasks (handleTaskCompletion taskId completed s) =
    map (setCompleted taskId completed) (tasks s) /\
  alerts (handleTaskCompletion taskId completed s) = alerts s /\
  (forall task,
     Task.notified (setCompleted taskId completed task) = Task.notified task /\
     startTime (setCompleted taskId completed task) = startTime task) /\
  (forall earlier,
     handleTaskCompletion taskId completed (handleTaskCompletion taskId earlier s) =
     handleTaskCompletion taskId completed s) /\
  ((forall task, In task (tasks s) -> Task.id task = taskId ->
                 Task.completed task = completed) ->
   handleTaskCompletion taskId completed s = s).
Proof.
  intros Ho.
  assert (Hin : forall c st, ordered (tasks st) = true ->
            handleTaskCompletion taskId c st =
            mkStore (map (setCompleted taskId c) (tasks st)) (alerts st) (issued st)).
  { intros c st H. unfold handleTaskCompletion, setTasks.
    rewrite sorted_map_in_place; auto. intros t. apply startTime_setCompleted. }
  split; [now rewrite Hin|]. split; [reflexivity|]. split; [|split].
  - intros task. split; [|apply startTime_setCompleted].
    unfold setCompleted. now destruct (String.eqb (Task.id task) taskId).
  - intros earlier. rewrite (Hin earlier s Ho).
    rewrite Hin by (cbn [tasks]; rewrite ordered_map; auto;
                    intros t; apply startTime_setCompleted).
    rewrite (Hin completed s Ho). cbn [tasks alerts issued]. f_equal.
    rewrite map_map. apply map_ext. intros t. unfold setCompleted.
    destruct (String.eqb (Task.id t) taskId) eqn:E; simpl; now rewrite E.
  - intros Hsame. rewrite (Hin completed s Ho).
    rewrite <- (store_eta s) at 4. f_equal.
    rewrite <- (map_id (tasks s)) at 2. apply map_ext_in. intros t Ht.
    unfold setCompleted. destruct (String.eqb_spec (Task.id t) taskId) as [E|E];
      [|reflexivity].
    rewrite <- (Hsame t Ht E). now destruct t.
Qed.

(** X15. On a collection in ascending order an update that carries neither
    a date nor a time is made in place: changing the reminder, the title or
    the description of a task moves no task. *)
Theorem update_without_schedule_in_place
  (taskId : string) (updates : Updates.t) (s : Store) :
  ordered (tasks s) = true ->
  Updates.date updates = None ->
  Updates.time updates = None ->
  tasks (handleTaskUpdate taskId updates s) = map (updateTask taskId updates) (tasks s) /\
  ordered (tasks (handleTaskUpdate taskId updates s)) = true.
Proof.
  intros Ho Hd Ht.
  assert (E : tasks (handleTaskUpdate taskId updates s) =
              map (updateTask taskId updates) (tasks s)).
  { cbn [handleTaskUpdate setTasks tasks]. apply sorted_map_in_place; auto.
    intros t. now apply startTime_updateTask. }
  split; [exact E|]. rewrite E, ordered_map; auto.
  intros t. now apply startTime_updateTask.
Qed.

End OperationProperties.

(** * Alerts over time *)

Section AlertProperties.
Context {host : Host}.

(** Every task that carries the identifier is notified or completed. *)
Lemma settled_after_tick (taskId : string) (nowTime : Z) (s : Store) :
  (forall task, In task (tasks s) -> Task.id task = taskId ->
     Task.notified task = true \/ Task.completed task = true) ->
  forall task, In task (tasks (tick nowTime s)) -> Task.id task = taskId ->
    Task.notified task = true \/ Task.completed task = true.
Proof.
  intros H task Hin Hid. rewrite tick_tasks in Hin.
  destruct (existsb (qualifies nowTime) (tasks s)); [|now apply H].
  apply (Permutation_in _ (sortTasks_perm _)) in Hin.
  apply in_map_iff in Hin as [t [<- Ht]].
  unfold tickTask in *. destruct (qualifies nowTime t); [now left|now apply H].
Qed.

Lemma settled_is_silent (taskId : string) (nowTime : Z) (s : Store) :
  (forall task, In task (tasks s) -> Task.id task = taskId ->
     Task.notified task = true \/ Task.completed task = true) ->
  alertsFor taskId (alerts (tick nowTime s)) = alertsFor taskId (alerts s).
Proof.
  intros H. rewrite tick_alerts. apply alertsFor_notifyAll_others.
  intros t Ht Hid. apply filter_In in Ht as [Ht Q].
  unfold qualifies in Q. apply andb_prop in Q as [Q _].
  apply negb_true_iff, orb_false_elim in Q as [Q1 Q2].
  destruct (H t Ht Hid); congruence.
Qed.

Lemma ticks_silent (taskId : string) (times : list Z) (s : Store) :
  (forall task, In task (tasks s) -> Task.id task = taskId ->
     Task.notified task = true \/ Task.completed task = true) ->
  alertsFor taskId (alerts (fold_left run (map Tick times) s)) =
  alertsFor taskId (alerts s).
Proof.
  revert s. induction times as [|t times IH]; intros s H; [reflexivity|].
  simpl. rewrite IH by now apply settled_after_tick.
  now apply settled_is_silent.
Qed.

(** X16. When every task that carries an identifier is notified or
    completed, or no task carries it, no sequence of ticks, at whatever
    times, changes the live alerts of that identifier. *)
Theorem settled_tasks_stay_silent (taskId : string) (times : list Z) (s : Store) :
  (forall task, In task (tasks s) -> Task.id task = taskId ->
     Task.notified task = true \/ Task.completed task = true) ->
  alertsFor taskId (alerts (fold_left run (map Tick times) s)) =
  alertsFor taskId (alerts s).
Proof. apply ticks_silent. Qed.

(** X17. Removal deletes every task that carries the identifier and keeps
    the others, and leaves the alert list alone: an alert of the removed
    task stays until it is dismissed, and no later tick adds one. *)
Theorem removal_keeps_alerts (taskId : string) (times : list Z) (s : Store) :
  ~ In taskId (map Task.id (tasks (handleTaskRemoval taskId s))) /\
  (forall task, In task (tasks s) -> Task.id task <> taskId ->
     In task (tasks (handleTaskRemoval taskId s))) /\
  (forall task, In task (tasks (handleTaskRemoval taskId s)) -> In task (tasks s)) /\
  alerts (handleTaskRemoval taskId s) = alerts s /\
  alertsFor taskId
    (alerts (fold_left run (map Tick times) (handleTaskRemoval taskId s))) =
  alertsFor taskId (alerts s).
Proof.
  assert (N : forall task, In task (tasks (handleTaskRemoval taskId s)) ->
                In task (tasks s) /\ Task.id task <> taskId).
  { cbn [handleTaskRemoval setTasks tasks]. intros task H.
    apply filter_In in H as [H E]. split; [assumption|].
    apply negb_true_iff in E. now apply String.eqb_neq. }
  split; [|split; [|split; [|split]]].
  - intros H. apply in_map_iff in H as [t [E Ht]].
    now destruct (N t Ht).
  - intros task Ht E. cbn [handleTaskRemoval setTasks tasks].
    apply filter_In. split; [assumption|].
    apply negb_true_iff. now apply String.eqb_neq.
  - intros task Ht. now destruct (N task Ht).
  - reflexivity.
  - rewrite ticks_silent; [reflexivity|].
    intros task Ht E. now destruct (N task Ht).
Qed.

Lemma filter_all {A : Type} (p : A -> bool) (l : list A) :
  (forall x, In x l -> p x = true) -> filter p l = l.
Proof.
  induction l as [|x l IH]; intros H; [reflexivity|]. simpl.
  rewrite (H x (or_introl eq_refl)), IH; auto. intros y Hy. apply H. now right.
Qed.

(** X18. Dismissing removes every alert with the identifier and no other,
    touches no task, and is a no-op when no alert has the identifier.  After
    a tick has fired a task that is the only one with its identifier,
    dismissing its alert leaves the task without a live alert through every
    later tick: a dismissed reminder does not come back. *)
Theorem dismissed_alert_stays_away
  (alertId : string) (nowTime : Z) (times : list Z) (s : Store) (task : Task.t) :
  (forall item, In item (alerts (acknowledgeAlert alertId s)) <->
     In item (alerts s) /\ Alert.id item <> alertId) /\
  tasks (acknowledgeAlert alertId s) = tasks s /\
  ((forall item, In item (alerts s) -> Alert.id item <> alertId) ->
   acknowledgeAlert alertId s = s) /\
  (In task (tasks s) -> soleOwner task (tasks s) ->
   qualifies nowTime task = true ->
   (forall item, In item (alertsFor (Task.id task) (alerts (tick nowTime s))) ->
      Alert.id item = alertId) ->
   alertsFor (Task.id task)
     (alerts (fold_left run (map Tick times)
                (acknowledgeAlert alertId (tick nowTime s)))) = []).
Proof.
  split; [|split; [|split]].
  - intros item. cbn [acknowledgeAlert alerts]. rewrite filter_In.
    rewrite negb_true_iff, String.eqb_neq. reflexivity.
  - reflexivity.
  - intros H. unfold acknowledgeAlert. rewrite filter_all, store_eta; [reflexivity|].
    intros item Hi. apply negb_true_iff, String.eqb_neq. now apply H.
  - intros Hin Hsole Q Hid. rewrite ticks_silent.
    + cbn [acknowledgeAlert alerts]. unfold alertsFor.
      destruct (filter (sameTask (Task.id task)) (filter _ _)) as [|item rest] eqn:E;
        [reflexivity|].
      assert (Hi : In item (filter (sameTask (Task.id task))
                    (filter (fun item => negb (String.eqb (Alert.id item) alertId))
                       (alerts (tick nowTime s)))))
        by (rewrite E; now left).
      apply filter_In in Hi as [Hi Hs]. apply filter_In in Hi as [Hi Hn].
      apply negb_true_iff, String.eqb_neq in Hn. exfalso. apply Hn, Hid.
      apply filter_In. now split.
    + cbn [acknowledgeAlert tasks]. intros t Ht E.
      rewrite tick_tasks in Ht.
      assert (X : existsb (qualifies nowTime) (tasks s) = true)
        by (apply existsb_exists; eauto).
      rewrite X in Ht. apply (Permutation_in _ (sortTasks_perm _)) in Ht.
      apply in_map_iff in Ht as [t0 [<- Ht0]].
      assert (t0 = task).
      { apply Hsole; [assumption|]. unfold tickTask in E.
        now destruct (qualifies nowTime t0). }
      subst t0. unfold tickTask. rewrite Q. now left.
Qed.

End AlertProperties.

(** * Rescheduling and the daily template *)

Section RescheduleProperties.
Context {host : Host}.

Lemma formatDateInput_truthy (value : JS.num) :
  JS.truthy (formatDateInput value) = true.
Proof.
  destruct value as [|t]; [reflexivity|]. unfold formatDateInput.
  now destruct (numberText (getFullYear t)).
Qed.

(** X19. "Push to tomorrow" makes every task that carries the identifier
    pending again, whatever its flags were: not completed, not notified, and
    dated as [formatDateInput] writes tomorrow.  Its other fields, the other
    tasks and the alerts are unchanged. *)
Theorem push_to_tomorrow_makes_pending (localTime : Z) (taskId : string) (s : Store) :
  let push := updateTask taskId
                (Updates.mk None None (Some (formatDateInput (JS.Fin localTime)))
                   None None (Some false) (Some false)) in
  Permutation (tasks (pushToTomorrow localTime taskId s)) (map push (tasks s)) /\
  alerts (pushToTomorrow localTime taskId s) = alerts s /\
  forall task,
    (Task.id task <> taskId -> push task = task) /\
    (Task.id task = taskId ->
       push task =
       Task.mk (Task.id task) (Task.title task) (Task.description task)
         (formatDateInput (JS.Fin localTime)) (Task.time task)
         (Task.remindBefore task) false false).
Proof.
  intros push. split; [apply sortTasks_perm|]. split; [reflexivity|].
  intros task. unfold push, updateTask, applyUpdates. split; intros H.
  - apply String.eqb_neq in H. now rewrite H.
  - apply String.eqb_eq in H. rewrite H.
    cbn [Updates.title Updates.description Updates.date Updates.time
         Updates.remindBefore Updates.completed JS.nullish JS.truthy_opt].
    now rewrite formatDateInput_truthy.
Qed.

Lemma Permutation_filter {A : Type} (p : A -> bool) (l l' : list A) :
  Permutation l l' -> Permutation (filter p l) (filter p l').
Proof.
  induction 1 as [|x l l' H IH|x y l|l l' l'' H1 IH1 H2 IH2]; simpl.
  - constructor.
  - destruct (p x); [now constructor|assumption].
  - destruct (p x), (p y); try reflexivity. apply perm_swap.
  - now transitivity (filter p l').
Qed.

Lemma instantiate_dated (date : string) (entries : list Blueprint.t) (n : nat) :
  forall task, In task (instantiate date entries n) ->
    Task.date task = date /\ Task.completed task = false /\
    Task.notified task = false.
Proof.
  revert n. induction entries as [|e entries IH]; intros n task; simpl; [intros []|].
  intros [<-|H]; [now repeat split|]. now apply (IH (S n)).
Qed.

(** X20. After "Load daily template" the tasks of that date are exactly the
    five template tasks, all pending, whatever the date held before, so
    loading the template again does not add to them; the alerts are
    untouched and five identifiers are used. *)
Theorem template_day_has_five_tasks (date : string) (s : Store) :
  let onDate := fun task => String.eqb (Task.date task) date in
  Permutation (filter onDate (tasks (resetTemplateForDay date s)))
    (instantiate date templateBlueprint (issued s)) /\
  List.length (filter onDate (tasks (resetTemplateForDay date s))) = 5%nat /\
  List.length
    (filter onDate (tasks (resetTemplateForDay date (resetTemplateForDay date s))))
  = 5%nat /\
  (forall task, In task (tasks (resetTemplateForDay date s)) ->
     Task.date task = date ->
     Task.completed task = false /\ Task.notified task = false) /\
  alerts (resetTemplateForDay date s) = alerts s /\
  issued (resetTemplateForDay date s) = (issued s + 5)%nat.
Proof.
  intros onDate.
  assert (P : forall st,
            Permutation (filter onDate (tasks (resetTemplateForDay date st)))
              (instantiate date templateBlueprint (issued st))).
  { intros st. cbn [resetTemplateForDay tasks]. unfold replaceForDate.
    rewrite (Permutation_filter onDate _ _ (sortTasks_perm _)), filter_app.
    assert (E1 : filter onDate
                   (filter (fun task => negb (String.eqb (Task.date task) date))
                      (tasks st)) = []).
    { apply filter_nil_iff. apply forallb_forall. intros t Ht.
      apply filter_In in Ht as [_ Ht]. exact Ht. }
    rewrite E1. cbn [app]. rewrite filter_all; [reflexivity|].
    intros t Ht. destruct (instantiate_dated _ _ _ t Ht) as [E _].
    unfold onDate. rewrite E. apply String.eqb_refl. }
  split; [apply P|]. split; [now rewrite (Permutation_length (P s))|].
  split; [now rewrite (Permutation_length (P _))|]. split; [|split; reflexivity].
  intros task Hin Hd.
  assert (Hf : In task (filter onDate (tasks (resetTemplateForDay date s)))).
  { apply filter_In. split; [assumption|]. unfold onDate. rewrite Hd.
    apply String.eqb_refl. }
  apply (Permutation_in _ (P s)) in Hf.
  now destruct (instantiate_dated _ _ _ task Hf) as [_ H].
Qed.

End RescheduleProperties.

(** * Loading and seeding *)

Section LoadProperties.
Context {host : Host}.

Lemma dispatch_flags (events : list Event) (app : App) :
  hasInitialisedTemplate (fold_left dispatch events app) = hasInitialisedTemplate app /\
  isHydrated (fold_left dispatch events app) = isHydrated app.
Proof.
  revert app. induction events as [|e events IH]; intros app; [now split|].
  simpl. destruct (IH (dispatch app e)) as [H1 H2]. now rewrite H1, H2.
Qed.

Lemma mount_flags (today : string) (item : StoredItem) :
  hasInitialisedTemplate (mount today item) = true /\
  isHydrated (mount today item) = true.
Proof.
  destruct item; try (now split).
  unfold mount, initialApp, hydrateEffect, seedEffect.
  cbn [storage store isHydrated hasInitialisedTemplate ensureTemplate].
  destruct (_ && _); now split.
Qed.

(** X21. The template is seeded on the first load at most: once the
    component has mounted, the latch is set, and the seeding effect leaves
    the store, the latch and the storage as they are after any sequence of
    store events, also when the user has emptied the list. *)
Theorem template_is_seeded_once
  (today later : string) (item : StoredItem) (events : list Event) :
  hasInitialisedTemplate (mount today item) = true /\
  seedEffect later (fold_left dispatch events (mount today item)) =
  fold_left dispatch events (mount today item).
Proof.
  destruct (mount_flags today item) as [L H]. split; [exact L|].
  unfold seedEffect, ensureTemplate.
  destruct (dispatch_flags events (mount today item)) as [L' _].
  rewrite L', L. now destruct (_ && _).
Qed.

(** X22. The first load.  A stored collection is installed sorted and
    nothing is seeded, also when the stored collection is empty.  With no
    stored text, or text that cannot be parsed, the store is seeded with the
    five template tasks dated today.  Either way the storage then holds the
    collection of the store, so unreadable text is replaced. *)
Theorem first_load_installs_or_seeds (today : string) (item : StoredItem) :
  (forall parsed, item = Snapshot parsed ->
     tasks (store (mount today item)) = sortTasks parsed /\
     issued (store (mount today item)) = 0%nat) /\
  (item = NoItem \/ item = Unreadable ->
     tasks (store (mount today item)) =
       sortTasks (instantiate today templateBlueprint 0) /\
     Permutation (tasks (store (mount today item)))
       (instantiate today templateBlueprint 0) /\
     issued (store (mount today item)) = 5%nat) /\
  alerts (store (mount today item)) = [] /\
  storage (mount today item) = Snapshot (tasks (store (mount today item))).
Proof.
  split; [|split; [|split]].
  - intros parsed ->. unfold mount, initialApp, hydrateEffect, seedEffect.
    cbn [storage store isHydrated hasInitialisedTemplate ensureTemplate].
    destruct (_ && _); now split.
  - intros [-> | ->]; (split; [reflexivity|split; [apply sortTasks_perm|reflexivity]]).
  - destruct item; try reflexivity.
    unfold mount, initialApp, hydrateEffect, seedEffect.
    cbn [storage store isHydrated hasInitialisedTemplate ensureTemplate].
    now destruct (_ && _).
  - destruct item; try reflexivity.
    unfold mount, initialApp, hydrateEffect, seedEffect.
    cbn [storage store isHydrated hasInitialisedTemplate ensureTemplate].
    now destruct (_ && _).
Qed.

(** X23. Sorting rearranges and, when every task has a valid start
    instant, orders the collection; sorting a sorted collection again
    changes nothing. *)
Theorem sortTasks_orders_once (l : list Task.t) :
  Permutation (sortTasks l) l /\
  (forallb validTask l = true ->
     ordered (sortTasks l) = true /\ sortTasks (sortTasks l) = sortTasks l).
Proof.
  split; [apply sortTasks_perm|]. intros H.
  pose proof (sortTasks_ordered l H) as O. split; [exact O|].
  now apply sortTasks_fixed.
Qed.

Lemma tickMapFx_spec (supported : bool) (permission : Permission) (nowTime : Z)
  (current : list Task.t) (s : Store) :
  tickMapFx supported permission nowTime current s =
  (tickMap nowTime current s,
   flat_map (notificationEffects supported permission)
     (filter (qualifies nowTime) current)).
Proof.
  revert s. induction current as [|task rest IH]; intros s; [reflexivity|].
  cbn [tickMapFx tickMap filter].
  assert (Q : qualifies nowTime task =
              negb (Task.completed task || Task.notified task)
              && JS.ge (JS.Fin nowTime) (triggerTime task)) by reflexivity.
  destruct (Task.completed task || Task.notified task);
    [|destruct (JS.ge (JS.Fin nowTime) (triggerTime task))];
    cbn [negb andb] in Q; rewrite Q, IH.
  - now destruct (tickMap nowTime rest s) as [[next touched] s'].
  - now destruct (tickMap nowTime rest (triggerNotification task s))
      as [[next touched] s'].
  - now destruct (tickMap nowTime rest s) as [[next touched] s'].
Qed.

Lemma tones_of_notification (supported : bool) (permission : Permission)
  (task : Task.t) :
  filter isTone (notificationEffects supported permission task) = [PlayTone].
Proof. now destruct supported, permission. Qed.

Lemma tones_of_effects (supported : bool) (permission : Permission)
  (fired : list Task.t) :
  filter isTone (flat_map (notificationEffects supported permission) fired) =
  repeat PlayTone (List.length fired).
Proof.
  induction fired as [|t fired IH]; [reflexivity|].
  cbn [flat_map]. rewrite filter_app, tones_of_notification, IH. reflexivity.
Qed.

Lemma effects_without_permission (supported : bool) (permission : Permission)
  (fired : list Task.t) :
  supported = false \/ permission <> Granted ->
  flat_map (notificationEffects supported permission) fired =
  repeat PlayTone (List.length fired).
Proof.
  intros H. induction fired as [|t fired IH]; [reflexivity|].
  cbn [flat_map]. rewrite IH. simpl.
  destruct H as [-> | H]; [reflexivity|].
  unfold notificationEffects. destruct supported, permission; try reflexivity.
  contradiction.
Qed.

(** X24. A tick rings the chime once for every qualifying task, also for a
    task whose alert is already live and is not added again.  The desktop
    notifications do not change the store, and without the notification API
    or without granted permission the chimes are the only effects. *)
Theorem tick_chimes_per_qualifying_task
  (supported : bool) (permission : Permission) (nowTime : Z) (s : Store) :
  let fired := filter (qualifies nowTime) (tasks s) in
  fst (tickFx supported permission nowTime s) = tick nowTime s /\
  snd (tickFx supported permission nowTime s) =
    flat_map (notificationEffects supported permission) fired /\
  filter isTone (snd (tickFx supported permission nowTime s)) =
    repeat PlayTone (List.length fired) /\
  (supported = false \/ permission <> Granted ->
   snd (tickFx supported permission nowTime s) =
     repeat PlayTone (List.length fired)).
Proof.
  intros fired.
  assert (E : tickFx supported permission nowTime s =
              (tick nowTime s,
               flat_map (notificationEffects supported permission) fired)).
  { unfold tickFx, tick. rewrite tickMapFx_spec.
    now destruct (tickMap nowTime (tasks s) s) as [[next touched] s']. }
  rewrite E. cbn [fst snd]. split; [reflexivity|]. split; [reflexivity|]. split.
  - apply tones_of_effects.
  - apply effects_without_permission.
Qed.

End LoadProperties.

(** * Dates as text *)

Section DateTextProperties.
Context {host : Host}.

Lemma doe_bounds (z : Z) : 0 <= z - z / 146097 * 146097 <= 146096.
Proof. Z.div_mod_to_equations; lia. Qed.

Lemma yoe_bounds (doe : Z) :
  0 <= doe <= 146096 ->
  0 <= (doe - doe / 1460 + doe / 36524 - doe / 146096) / 365 <= 399.
Proof. intros H. Z.div_mod_to_equations; lia. Qed.

Lemma doy_bounds (doe : Z) :
  0 <= doe <= 146096 ->
  let yoe := (doe - doe / 1460 + doe / 36524 - doe / 146096) / 365 in
  0 <= doe - (365 * yoe + yoe / 4 - yoe / 100) <= 365.
Proof. intros H yoe. unfold yoe. Z.div_mod_to_equations; lia. Qed.

Lemma mp_bounds (doy : Z) :
  0 <= doy <= 365 ->
  let mp := (5 * doy + 2) / 153 in
  0 <= mp <= 11 /\ 1 <= doy - (153 * mp + 2) / 5 + 1 <= 31.
Proof. intros H mp. unfold mp. Z.div_mod_to_equations; lia. Qed.

(** The calendar date of a day number is that day, in a month from 0 to 11
    and on a day from 1 to 31. *)
Lemma civil_MakeDay (day : Z) :
  JS.MakeDay (fst (fst (civil day))) (snd (fst (civil day))) (snd (civil day)) = day /\
  0 <= snd (fst (civil day)) <= 11 /\
  1 <= snd (civil day) <= 31.
Proof.
  unfold civil. cbn [fst snd].
  pose proof (doe_bounds (day + 719468)) as Hdoe.
  remember (day + 719468) as z eqn:Ez.
  remember (z / 146097) as era eqn:Eera.
  remember (z - era * 146097) as doe eqn:Edoe.
  pose proof (yoe_bounds doe Hdoe) as Hyoe.
  pose proof (doy_bounds doe Hdoe) as Hdoy. cbv zeta in Hdoy.
  remember ((doe - doe / 1460 + doe / 36524 - doe / 146096) / 365) as yoe eqn:Eyoe.
  remember (doe - (365 * yoe + yoe / 4 - yoe / 100)) as doy eqn:Edoy.
  pose proof (mp_bounds doy Hdoy) as Hmp. cbv zeta in Hmp.
  remember ((5 * doy + 2) / 153) as mp eqn:Emp.
  destruct Hmp as [Hmp Hdate].
  remember (doy - (153 * mp + 2) / 5 + 1) as date eqn:Edate.
  clear Eyoe Emp Eera.
  remember (if mp <? 10 then mp + 2 else mp - 10) as month eqn:Emonth.
  assert (Hmonth : 0 <= month <= 11)
    by (subst month; destruct (Z.ltb_spec mp 10); lia).
  split; [|split; assumption].
  unfold JS.MakeDay, JS.day_of_month_start.
  rewrite (Z.div_small month 12), (Z.mod_small month 12), Z.add_0_r by lia.
  assert (Hy : (if month <=? 1
                then yoe + era * 400 + (if month <=? 1 then 1 else 0) - 1
                else yoe + era * 400 + (if month <=? 1 then 1 else 0))
               = yoe + era * 400)
    by (destruct (month <=? 1); lia).
  rewrite Hy.
  assert (Hera : (yoe + era * 400) / 400 = era)
    by (rewrite Z.div_add by lia; rewrite Z.div_small by lia; lia).
  rewrite Hera.
  assert (Hmp' : (if month <=? 1 then month + 10 else month - 2) = mp).
  { subst month. destruct (Z.ltb_spec mp 10).
    - destruct (Z.leb_spec (mp + 2) 1); lia.
    - destruct (Z.leb_spec (mp - 10) 1); lia. }
  rewrite Hmp'. replace (yoe + era * 400 - era * 400) with yoe by lia.
  subst date doy doe z.
  generalize (yoe / 4) (yoe / 100) ((153 * mp + 2) / 5). intros. lia.
Qed.

Lemma digit_facts (d : Z) :
  0 <= d <= 9 ->
  JS.digit_val (digitChar d) = Some d /\
  JS.is_space (digitChar d) = false /\
  Ascii.eqb (digitChar d) "-" = false.
Proof.
  intros H.
  assert (C : d = 0 \/ d = 1 \/ d = 2 \/ d = 3 \/ d = 4 \/ d = 5 \/ d = 6 \/
              d = 7 \/ d = 8 \/ d = 9) by lia.
  repeat (destruct C as [->|C]; [repeat split|]). subst. repeat split.
Qed.

Lemma decimalDigits_shape (fuel : nat) (n : Z) (acc : string) :
  allDigits acc = true -> lacks "-" acc = true ->
  allDigits (decimalDigits fuel n acc) = true /\
  lacks "-" (decimalDigits fuel n acc) = true.
Proof.
  revert n acc. induction fuel as [|fuel IH]; intros n acc Ha Hl; [now split|].
  cbn [decimalDigits].
  assert (Hd : 0 <= n mod 10 <= 9) by (pose proof (Z.mod_pos_bound n 10); lia).
  destruct (digit_facts _ Hd) as [D1 [_ D3]].
  assert (A : allDigits (String (digitChar (n mod 10)) acc) = true)
    by (cbn [allDigits]; now rewrite D1).
  assert (L : lacks "-" (String (digitChar (n mod 10)) acc) = true)
    by (cbn [lacks]; now rewrite D3).
  destruct (n <? 10); [now split|]. now apply IH.
Qed.

Lemma decimalDigits_nonempty (fuel : nat) (n : Z) (acc : string) :
  decimalDigits (S fuel) n acc <> ""%string.
Proof.
  revert n acc. induction fuel as [|fuel IH]; intros n acc.
  - cbn [decimalDigits]. destruct (n <? 10); discriminate.
  - cbn [decimalDigits] in *. destruct (n <? 10); [discriminate|].
    specialize (IH (n / 10) (String (digitChar (n mod 10)) acc)).
    cbn [decimalDigits] in IH. exact IH.
Qed.

(** Reading the digits that were written gives the number back. *)
Lemma digits_decimalDigits (fuel : nat) (n : Z) (acc : string) (a : Z) :
  0 <= n < 10 ^ Z.of_nat (S fuel) ->
  exists k, 0 <= k /\
    JS.digits a (decimalDigits (S fuel) n acc) = JS.digits (a * 10 ^ k + n) acc.
Proof.
  revert n acc a. induction fuel as [|fuel IH]; intros n acc a Hn.
  - cbn [decimalDigits]. assert (n < 10) by (simpl in Hn; lia).
    destruct (Z.ltb_spec n 10); [|lia].
    exists 1. split; [lia|]. cbn [JS.digits]. rewrite Z.mod_small by lia.
    destruct (digit_facts n) as [D _]; [lia|]. rewrite D. f_equal. lia.
  - cbn [decimalDigits]. destruct (Z.ltb_spec n 10).
    + exists 1. split; [lia|]. cbn [JS.digits]. rewrite Z.mod_small by lia.
      destruct (digit_facts n) as [D _]; [lia|]. rewrite D. f_equal. lia.
    + assert (Hq : 0 <= n / 10 < 10 ^ Z.of_nat (S fuel)).
      { rewrite (Nat2Z.inj_succ (S fuel)), Z.pow_succ_r in Hn by lia.
        split; [apply Z.div_pos; lia|]. apply Z.div_lt_upper_bound; lia. }
      destruct (IH (n / 10) (String (digitChar (n mod 10)) acc) a Hq) as [k [Hk E]].
      cbn [decimalDigits] in E. exists (Z.succ k). split; [lia|].
      rewrite E. cbn [JS.digits].
      assert (Hd : 0 <= n mod 10 <= 9) by (pose proof (Z.mod_pos_bound n 10); lia).
      destruct (digit_facts _ Hd) as [D _]. rewrite D.
      f_equal. rewrite Z.pow_succ_r by lia. pose proof (Z.div_mod n 10). lia.
Qed.

Lemma fuel_enough (n : Z) :
  0 <= n -> 0 <= n < 10 ^ Z.of_nat (S (Z.to_nat (Z.log2 n))).
Proof.
  intros Hn. split; [assumption|].
  rewrite Nat2Z.inj_succ, Z2Nat.id by apply Z.log2_nonneg.
  destruct (Z.eq_dec n 0) as [->|Hz]; [reflexivity|].
  destruct (Z.log2_spec n) as [_ H]; [lia|].
  apply (Z.lt_le_trans _ _ _ H).
  apply Z.pow_le_mono_l. lia.
Qed.

Lemma digit_not_space (c : ascii) :
  JS.digit_val c <> None -> JS.is_space c = false.
Proof.
  destruct c as [[|] [|] [|] [|] [|] [|] [|] [|]];
    intros H; try reflexivity; exfalso; apply H; reflexivity.
Qed.

Lemma trim_end_digits (text : string) :
  allDigits text = true -> JS.trim_end text = text.
Proof.
  induction text as [|c text IH]; [reflexivity|]. cbn [allDigits JS.trim_end].
  destruct (JS.digit_val c) eqn:D; [|discriminate]. intros H. rewrite (IH H).
  destruct text; [|reflexivity]. rewrite digit_not_space; [reflexivity|].
  now rewrite D.
Qed.

Lemma trim_digits (text : string) : allDigits text = true -> JS.trim text = text.
Proof.
  intros H. unfold JS.trim.
  assert (E : JS.trim_start text = text).
  { destruct text as [|c text]; [reflexivity|]. cbn [JS.trim_start].
    cbn [allDigits] in H. destruct (JS.digit_val c) eqn:D; [|discriminate].
    rewrite digit_not_space; [reflexivity|]. now rewrite D. }
  rewrite E. now apply trim_end_digits.
Qed.

Lemma Number_digits (text : string) :
  allDigits text = true -> text <> ""%string ->
  JS.Number text =
  match JS.digits 0 text with Some v => JS.Fin v | None => JS.NaN end.
Proof.
  intros H Hne. unfold JS.Number. rewrite (trim_digits text H).
  destruct text as [|c rest]; [contradiction|].
  destruct c as [[|] [|] [|] [|] [|] [|] [|] [|]]; cbn in H;
    try discriminate H; reflexivity.
Qed.

Lemma numberText_facts (n : Z) :
  0 <= n ->
  allDigits (numberText n) = true /\
  lacks "-" (numberText n) = true /\
  JS.Number (numberText n) = JS.Fin n.
Proof.
  intros Hn. unfold numberText.
  destruct (Z.ltb_spec n 0); [lia|].
  set (fuel := Z.to_nat (Z.log2 n)).
  destruct (decimalDigits_shape (S fuel) n "" eq_refl eq_refl) as [A L].
  split; [exact A|]. split; [exact L|].
  rewrite Number_digits; [|exact A|apply decimalDigits_nonempty].
  destruct (digits_decimalDigits fuel n "" 0 (fuel_enough n Hn)) as [k [_ E]].
  rewrite E. reflexivity.
Qed.

Lemma padStart2_digits (text : string) :
  allDigits text = true -> lacks "-" text = true ->
  lacks "-" (JS.padStart2 text) = true.
Proof. destruct text as [|c [|d text]]; simpl; auto. Qed.

Lemma split_three (y m d : string) :
  lacks "-" y = true -> lacks "-" m = true -> lacks "-" d = true ->
  JS.split "-" (y ++ "-" ++ m ++ "-" ++ d) = [y; m; d].
Proof.
  intros Hy Hm Hd.
  change (y ++ "-" ++ m ++ "-" ++ d)%string
    with (y ++ String "-" (m ++ String "-" d))%string.
  now rewrite !split_app, !split_lacks.
Qed.

Lemma date_text_parts (t : Z) :
  0 <= getFullYear t ->
  map JS.Number (JS.split "-" (formatDateInput (JS.Fin t))) =
  [JS.Fin (getFullYear t); JS.Fin (getMonth t + 1); JS.Fin (getDate t)].
Proof.
  intros Hy.
  destruct (civil_MakeDay (Day t)) as [_ [Hm Hd]].
  fold (getMonth t) in Hm. fold (getDate t) in Hd.
  destruct (numberText_facts (getFullYear t) Hy) as [Ay [Ly Ny]].
  destruct (numberText_facts (getMonth t + 1)) as [Am [Lm Nm]]; [lia|].
  destruct (numberText_facts (getDate t)) as [Ad [Ld Nd]]; [lia|].
  unfold formatDateInput.
  rewrite split_three; try assumption; try (apply padStart2_digits; assumption).
  cbn [map]. now rewrite !Number_padStart2, Ny, Nm, Nd.
Qed.

(** X25. The text [formatDateInput] writes for a date from the year 0 on
    reads back as that date: its three parts are the year, the month and
    the day of the date, and from the year 100 on [combineDateTime] with
    the time 00:00 gives the local midnight of that day. *)
Theorem date_text_round_trip (t : Z) :
  0 <= getFullYear t ->
  map JS.Number (JS.split "-" (formatDateInput (JS.Fin t))) =
    [JS.Fin (getFullYear t); JS.Fin (getMonth t + 1); JS.Fin (getDate t)] /\
  JS.MakeDay (getFullYear t) (getMonth t) (getDate t) = Day t /\
  0 <= getMonth t <= 11 /\ 1 <= getDate t <= 31 /\
  (100 <= getFullYear t ->
   combineDateTime (formatDateInput (JS.Fin t)) "00:00" =
   JS.TimeClip (UTC (Day t * JS.msPerDay))).
Proof.
  intros Hy. pose proof (date_text_parts t Hy) as P.
  destruct (civil_MakeDay (Day t)) as [E [Hm Hd]].
  fold (getFullYear t) in E. fold (getMonth t) in E, Hm. fold (getDate t) in E, Hd.
  split; [exact P|]. split; [exact E|]. split; [exact Hm|]. split; [exact Hd|].
  intros H100. unfold combineDateTime. rewrite P.
  cbn [nth nth_error JS.nullish JS.sub].
  change (JS.Number (nth 0 (JS.split ":" "00:00") "00"%string)) with (JS.Fin 0).
  change (JS.Number (nth 1 (JS.split ":" "00:00") "00"%string)) with (JS.Fin 0).
  cbn [JS.new_Date]. f_equal. f_equal.
  unfold JS.MakeFullYear.
  destruct (Z.leb_spec (getFullYear t) 99); [lia|]. rewrite andb_false_r.
  replace (getMonth t + 1 - 1) with (getMonth t) by lia.
  rewrite E. unfold JS.MakeDate, JS.MakeTime. lia.
Qed.

(** X26. [combineDateTime] reads the first two parts of the time only: the
    seconds of a time such as 07:30:15 are ignored. *)
Theorem seconds_are_ignored (date hours minutes rest : string) :
  lacks ":" hours = true ->
  lacks ":" minutes = true ->
  combineDateTime date (hours ++ ":" ++ minutes ++ ":" ++ rest) =
  combineDateTime date (hours ++ ":" ++ minutes).
Proof.
  intros Hh Hm. unfold combineDateTime.
  change (hours ++ ":" ++ minutes ++ ":" ++ rest)%string
    with (hours ++ String ":" (minutes ++ String ":" rest))%string.
  change (hours ++ ":" ++ minutes)%string with (hours ++ String ":" minutes)%string.
  rewrite !split_app, !(split_lacks _ _ Hh), !(split_lacks _ _ Hm).
  reflexivity.
Qed.

End DateTextProperties.

(** * The further properties on the sample data *)

Lemma idle_tick_changes_nothing_witness :
  (forall task, In task (tasks planned) ->
     qualifies (host := utcHost) (stretchTrigger - 1) task = false) /\
  tick (host := utcHost) (stretchTrigger - 1) planned = planned.
Proof.
  assert (H : forall task, In task (tasks planned) ->
                qualifies (host := utcHost) (stretchTrigger - 1) task = false).
  { intros task [<-|[<-|[<-|[<-|[]]]]]; vm_compute; reflexivity. }
  refine (conj H _).
  exact (idle_tick_changes_nothing (host := utcHost) (stretchTrigger - 1) planned H).
Defined.

Lemma soonest_task_is_earliest_witness :
  forallb (validTask (host := utcHost))
    (filter (fun t => negb (Task.completed t)) (tasks planned)) = true /\
  getSoonestTask (host := utcHost) (tasks planned) = Some stretch /\
  (forall other, In other (tasks planned) -> Task.completed other = false ->
     notAfter (host := utcHost) stretch other = true).
Proof.
  assert (H1 : forallb (validTask (host := utcHost))
                 (filter (fun t => negb (Task.completed t)) (tasks planned)) = true)
    by (vm_compute; reflexivity).
  assert (H2 : getSoonestTask (host := utcHost) (tasks planned) = Some stretch)
    by (vm_compute; reflexivity).
  refine (conj H1 (conj H2 _)).
  exact (proj1 (soonest_task_is_earliest (host := utcHost) (tasks planned) stretch H1 H2)).
Defined.

Lemma normalizeTimeValue_keeps_instant_witness :
  allDigits (timePart 0 "7:5") = true /\
  allDigits (timePart 1 "7:5") = true /\
  normalizeTimeValue "7:5" = "07:05"%string /\
  combineDateTime (host := utcHost) "2024-01-02" (normalizeTimeValue "7:5") =
  combineDateTime (host := utcHost) "2024-01-02" "7:5".
Proof.
  refine (conj eq_refl (conj eq_refl (conj eq_refl _))).
  exact (normalizeTimeValue_keeps_instant (host := utcHost) "7:5" "2024-01-02"
           eq_refl eq_refl).
Defined.

Lemma form_submit_adds_one_pending_task_witness :
  Form.title walk <> ""%string /\
  Form.date walk <> ""%string /\
  Form.time walk <> ""%string /\
  List.length (tasks (handleFormSubmit (host := utcHost) walk planned)) = 5%nat /\
  issued (handleFormSubmit (host := utcHost) walk planned) = 1%nat.
Proof.
  assert (H1 : Form.title walk <> ""%string) by discriminate.
  assert (H2 : Form.date walk <> ""%string) by discriminate.
  assert (H3 : Form.time walk <> ""%string) by discriminate.
  refine (conj H1 (conj H2 (conj H3 (conj _ _)))).
  - exact (proj1 (proj2 (proj2 (form_submit_adds_one_pending_task (host := utcHost)
                                  walk planned) H1 H2 H3))).
  - exact (proj2 (proj2 (proj2 (proj2 (form_submit_adds_one_pending_task
                                         (host := utcHost) walk planned) H1 H2 H3)))).
Defined.

Lemma blank_title_is_accepted_witness :
  Form.title (Form.mk "  " "" "2024-01-05" "10:00" 5) <> ""%string /\
  allSpaces "  " = true /\
  exists task,
    In task (tasks (handleFormSubmit (host := utcHost)
                      (Form.mk "  " "" "2024-01-05" "10:00" 5) planned)) /\
    Task.id task = createId (Host := utcHost) (issued planned) /\
    Task.title task = ""%string.
Proof.
  assert (H1 : Form.title (Form.mk "  " "" "2024-01-05" "10:00" 5) <> ""%string)
    by discriminate.
  assert (H2 : Form.date (Form.mk "  " "" "2024-01-05" "10:00" 5) <> ""%string)
    by discriminate.
  assert (H3 : Form.time (Form.mk "  " "" "2024-01-05" "10:00" 5) <> ""%string)
    by discriminate.
  refine (conj H1 (conj eq_refl _)).
  exact (blank_title_is_accepted (host := utcHost)
           (Form.mk "  " "" "2024-01-05" "10:00" 5) planned H1 eq_refl H2 H3).
Defined.

Lemma completion_changes_in_place_witness :
  ordered (host := utcHost) (tasks planned) = true /\
  tasks (handleTaskCompletion (host := utcHost) "s" true planned) =
    map (setCompleted "s" true) (tasks planned) /\
  handleTaskCompletion (host := utcHost) "s" false
    (handleTaskCompletion (host := utcHost) "s" true planned) =
  handleTaskCompletion (host := utcHost) "s" false planned.
Proof.
  assert (H : ordered (host := utcHost) (tasks planned) = true)
    by (vm_compute; reflexivity).
  refine (conj H (conj _ _)).
  - exact (proj1 (completion_changes_in_place (host := utcHost) "s" true planned H)).
  - exact (proj1 (proj2 (proj2 (proj2
             (completion_changes_in_place (host := utcHost) "s" false planned H))))
             true).
Defined.

Lemma update_without_schedule_in_place_witness :
  ordered (host := utcHost) (tasks planned) = true /\
  Updates.date remindOnly = None /\
  Updates.time remindOnly = None /\
  tasks (handleTaskUpdate (host := utcHost) "l" remindOnly planned) =
    map (updateTask "l" remindOnly) (tasks planned).
Proof.
  assert (H : ordered (host := utcHost) (tasks planned) = true)
    by (vm_compute; reflexivity).
  refine (conj H (conj eq_refl (conj eq_refl _))).
  exact (proj1 (update_without_schedule_in_place (host := utcHost) "l" remindOnly
                  planned H eq_refl eq_refl)).
Defined.

Lemma settled_tasks_stay_silent_witness :
  (forall task, In task (tasks alerted) -> Task.id task = "s"%string ->
     Task.notified task = true \/ Task.completed task = true) /\
  alertsFor "s"
    (alerts (fold_left (run (host := utcHost))
               (map Tick [stretchTrigger; stretchTrigger + 30000]) alerted)) =
  alertsFor "s" (alerts alerted).
Proof.
  assert (H : forall task, In task (tasks alerted) -> Task.id task = "s"%string ->
                Task.notified task = true \/ Task.completed task = true).
  { intros task [<-|[<-|[<-|[<-|[]]]]] E; try discriminate E. left. reflexivity. }
  refine (conj H _).
  exact (settled_tasks_stay_silent (host := utcHost) "s"
           [stretchTrigger; stretchTrigger + 30000] alerted H).
Defined.

Lemma dismissed_alert_stays_away_witness :
  In stretch (tasks planned) /\
  soleOwner stretch (tasks planned) /\
  qualifies (host := utcHost) stretchTrigger stretch = true /\
  (forall item,
     In item (alertsFor (Task.id stretch)
                (alerts (tick (host := utcHost) stretchTrigger planned))) ->
     Alert.id item = "0"%string) /\
  alertsFor (Task.id stretch)
    (alerts (fold_left (run (host := utcHost))
               (map Tick [stretchTrigger + 30000; stretchTrigger + 60000])
               (acknowledgeAlert "0" (tick (host := utcHost) stretchTrigger planned))))
  = [].
Proof.
  assert (H1 : In stretch (tasks planned)) by (simpl; auto).
  assert (H2 : soleOwner stretch (tasks planned)).
  { intros other [<-|[<-|[<-|[<-|[]]]]] E; try discriminate E. reflexivity. }
  assert (H3 : qualifies (host := utcHost) stretchTrigger stretch = true)
    by (vm_compute; reflexivity).
  assert (H4 : forall item,
             In item (alertsFor (Task.id stretch)
                        (alerts (tick (host := utcHost) stretchTrigger planned))) ->
             Alert.id item = "0"%string).
  { intros item [<-|[]]. reflexivity. }
  refine (conj H1 (conj H2 (conj H3 (conj H4 _)))).
  exact (proj2 (proj2 (proj2 (dismissed_alert_stays_away (host := utcHost) "0"
                  stretchTrigger [stretchTrigger + 30000; stretchTrigger + 60000]
                  planned stretch))) H1 H2 H3 H4).
Defined.

Lemma sortTasks_orders_once_witness :
  forallb (validTask (host := utcHost)) [lunch; focus; early] = true /\
  ordered (host := utcHost) (sortTasks (host := utcHost) [lunch; focus; early]) = true /\
  sortTasks (host := utcHost) (sortTasks (host := utcHost) [lunch; focus; early]) =
  sortTasks (host := utcHost) [lunch; focus; early].
Proof.
  assert (H : forallb (validTask (host := utcHost)) [lunch; focus; early] = true)
    by (vm_compute; reflexivity).
  refine (conj H _).
  exact (proj2 (sortTasks_orders_once (host := utcHost) [lunch; focus; early]) H).
Defined.

Lemma date_text_round_trip_witness :
  0 <= getFullYear 1704180600000 /\
  100 <= getFullYear 1704180600000 /\
  formatDateInput (JS.Fin 1704180600000) = "2024-01-02"%string /\
  combineDateTime (host := utcHost) (formatDateInput (JS.Fin 1704180600000)) "00:00" =
  JS.TimeClip (UTC (Host := utcHost) (Day 1704180600000 * JS.msPerDay)).
Proof.
  assert (H1 : 0 <= getFullYear 1704180600000) by (vm_compute; discriminate).
  assert (H2 : 100 <= getFullYear 1704180600000) by (vm_compute; discriminate).
  assert (H3 : formatDateInput (JS.Fin 1704180600000) = "2024-01-02"%string)
    by (vm_compute; reflexivity).
  refine (conj H1 (conj H2 (conj H3 _))).
  exact (proj2 (proj2 (proj2 (proj2
           (date_text_round_trip (host := utcHost) 1704180600000 H1)))) H2).
Defined.

Lemma seconds_are_ignored_witness :
  lacks ":" "07" = true /\
  lacks ":" "30" = true /\
  combineDateTime (host := utcHost) "2024-01-02" "07:30:15" =
  combineDateTime (host := utcHost) "2024-01-02" "07:30".
Proof.
  refine (conj eq_refl (conj eq_refl _)).
  exact (seconds_are_ignored (host := utcHost) "2024-01-02" "07" "30" "15"
           eq_refl eq_refl).
Defined.
